(** * debateData: the CSV summarising pipeline of [main.go]

    A shallow embedding of the pure core of the program: header
    normalisation ([sanitizeColumnName]), the record parser
    ([parseCsvData]), the issue collector ([getIssues]) and the table
    builder ([summarize]), followed by the properties of the pipeline.

    Modelling conventions.
    - A Go [string] is a sequence of bytes: [string] of the Standard Library.
    - Go's [int] is the 64-bit signed integer: a [Z] together with [wrap64],
      written out wherever the program adds.
    - A Go [map] is a [gmap]; the order in which [range] visits it is not
      fixed by the language, so every loop over a map takes a [RangeOrder]
      that picks the order of the visit.
    - A function that may return an error or stop with a run-time panic
      (index out of range) returns a [result]. *)

From Stdlib Require Import ZArith String Ascii List DecimalString DecimalPos.
From stdpp Require Import base option list gmap strings sorting fin_maps fin_sets.

Open Scope string_scope.
Open Scope list_scope.
Open Scope Z_scope.

(** ** Results of fallible code *)

Inductive error : Type :=
  | DateColumnError               (* "more than one date column" *)
  | AggregationError (cell : string). (* strconv.Atoi failed on [cell] *)

Inductive result (A : Type) : Type :=
  | Ok (a : A)
  | Err (e : error)
  | Panic.

Arguments Ok {A} a.
Arguments Err {A} e.
Arguments Panic {A}.

Definition result_bind {A B} (f : A -> result B) (r : result A) : result B :=
  match r with
  | Ok a => f a
  | Err e => Err e
  | Panic => Panic
  end.

#[global] Instance result_mbind : MBind result := @result_bind.
#[global] Instance result_mret : MRet result := @Ok.

(** [xs[i]] on a slice: a panic when [i] is out of range. *)
Definition elemAt {A} (xs : list A) (i : nat) : result A :=
  match xs !! i with
  | Some x => Ok x
  | None => Panic
  end.

(** ** The order of a [range] over a map *)

Record RangeOrder (A : Type) : Type := MkRangeOrder {
  visit : nat -> list A -> list A;
  visit_perm : forall n l, visit n l ≡ₚ l
}.

Arguments visit {A} r n l.
Arguments visit_perm {A} r n l.

Definition inOrder {A} : RangeOrder A :=
  {| visit := fun _ l => l; visit_perm := fun _ l => reflexivity l |}.

Definition reversed {A} : RangeOrder A :=
  {| visit := fun _ l => rev l;
     visit_perm := fun _ l => Permutation_sym (Permutation_rev l) |}.

(** ** Go's [int] *)

Definition minInt : Z := - 2 ^ 63.
Definition maxInt : Z := 2 ^ 63 - 1.

Definition inInt (n : Z) : Prop := minInt <= n <= maxInt.

Definition inIntb (n : Z) : bool := (minInt <=? n) && (n <=? maxInt).

Definition wrap64 (n : Z) : Z := (n + 2 ^ 63) mod 2 ^ 64 - 2 ^ 63.

(** ** strconv *)

(** [strconv.Itoa]: a minus sign for a negative number, then the decimal
    digits with no leading zero. *)
Definition Itoa (n : Z) : string := NilZero.string_of_int (Z.to_int n).

Definition digitOf (c : ascii) : option Z :=
  let n := Z.of_N (N_of_ascii c) in
  if (48 <=? n) && (n <=? 57) then Some (n - 48) else None.

(** The digit loop of [strconv.Atoi], [n = n*10 + int(ch)]. *)
Fixpoint atoiDigits (s : string) (n : Z) : option Z :=
  match s with
  | EmptyString => Some n
  | String ch s' =>
      match digitOf ch with
      | Some d => atoiDigits s' (n * 10 + d)
      | None => None
      end
  end.

(** [strconv.Atoi]: an optional sign, at least one digit, nothing else,
    and a value that fits [int]; [None] stands for the [*NumError]. *)
Definition Atoi (s : string) : option Z :=
  match s with
  | EmptyString => None
  | String c s' =>
      let neg := Ascii.eqb c "-" in
      let body := if neg || Ascii.eqb c "+" then s' else s in
      match body with
      | EmptyString => None
      | _ =>
          match atoiDigits body 0 with
          | Some un =>
              let n := if neg then - un else un in
              if inIntb n then Some n else None
          | None => None
          end
      end
  end.

(** ** strings *)

(** [strings.Split(s, sep)] for a separator of one byte. *)
Fixpoint Split (s : string) (sep : ascii) : list string :=
  match s with
  | EmptyString => [EmptyString]
  | String c s' =>
      if Ascii.eqb c sep then EmptyString :: Split s' sep
      else match Split s' sep with
           | p :: ps => String c p :: ps
           | [] => [String c EmptyString]
           end
  end.

(** [strings.Contains(s, substr)]. *)
Fixpoint Contains (s substr : string) : bool :=
  String.prefix substr s ||
  match s with
  | EmptyString => false
  | String _ s' => Contains s' substr
  end.

Definition byte (c : ascii) : N := N_of_ascii c.

(** One white-space rune at the head of [s], as [unicode.IsSpace] decides
    on the UTF-8 decoding: the remainder of [s] after that rune. The runes
    are U+0009..U+000D, U+0020, U+0085, U+00A0, U+1680, U+2000..U+200A,
    U+2028, U+2029, U+202F, U+205F and U+3000. *)
Definition isSpace3 (b0 b1 b2 : N) : bool :=
  ((b0 =? 225) && (b1 =? 154) && (b2 =? 128)
   || (b0 =? 226) && (b1 =? 128)
      && (((128 <=? b2) && (b2 <=? 138)) || (b2 =? 168) || (b2 =? 169) || (b2 =? 175))
   || (b0 =? 226) && (b1 =? 129) && (b2 =? 159)
   || (b0 =? 227) && (b1 =? 128) && (b2 =? 128))%N.

Definition isSpace2 (b0 b1 : N) : bool :=
  ((b0 =? 194) && ((b1 =? 133) || (b1 =? 160)))%N.

Definition isSpace1 (b0 : N) : bool :=
  (((9 <=? b0) && (b0 <=? 13)) || (b0 =? 32))%N.

Definition leadingSpace (s : string) : option string :=
  match s with
  | String c0 s0 =>
      if isSpace1 (byte c0) then Some s0
      else match s0 with
           | String c1 s1 =>
               if isSpace2 (byte c0) (byte c1) then Some s1
               else match s1 with
                    | String c2 s2 =>
                        if isSpace3 (byte c0) (byte c1) (byte c2) then Some s2
                        else None
                    | EmptyString => None
                    end
           | EmptyString => None
           end
  | EmptyString => None
  end.

(** The same at the end of the string, on the reversed bytes. *)
Definition trailingSpace (r : string) : option string :=
  match r with
  | String c0 r0 =>
      if isSpace1 (byte c0) then Some r0
      else match r0 with
           | String c1 r1 =>
               if isSpace2 (byte c1) (byte c0) then Some r1
               else match r1 with
                    | String c2 r2 =>
                        if isSpace3 (byte c2) (byte c1) (byte c0) then Some r2
                        else None
                    | EmptyString => None
                    end
           | EmptyString => None
           end
  | EmptyString => None
  end.

Fixpoint dropWhileSome (step : string -> option string) (fuel : nat) (s : string) : string :=
  match fuel with
  | O => s
  | S fuel' =>
      match step s with
      | Some s' => dropWhileSome step fuel' s'
      | None => s
      end
  end.

Definition revString (s : string) : string :=
  string_of_list_ascii (rev (list_ascii_of_string s)).

(** [strings.TrimSpace]: the white-space runes at the left are removed,
    then those at the right of what is left. *)
Definition TrimSpace (s : string) : string :=
  let l := dropWhileSome leadingSpace (String.length s) s in
  revString (dropWhileSome trailingSpace (String.length l) (revString l)).

(** [strings.Trim(s, cutset)] for a cutset of one ASCII byte, which is
    [trimLeftByte(trimRightByte(s, c), c)] in the library. *)
Fixpoint trimLeftByte (c : ascii) (s : string) : string :=
  match s with
  | String a s' => if Ascii.eqb a c then trimLeftByte c s' else s
  | EmptyString => EmptyString
  end.

Definition trimRightByte (c : ascii) (s : string) : string :=
  revString (trimLeftByte c (revString s)).

Definition Trim (s : string) (c : ascii) : string :=
  trimLeftByte c (trimRightByte c s).

(** ** regexp: [rex.ReplaceAllString(val, "")] for the pattern [\[\d\]] *)

Definition isDigit (c : ascii) : bool :=
  let n := byte c in ((48 <=? n) && (n <=? 57))%N.

Fixpoint removeBracketDigit (s : string) : string :=
  match s with
  | EmptyString => EmptyString
  | String c t =>
      match t with
      | String d (String e u) =>
          if Ascii.eqb c "[" && isDigit d && Ascii.eqb e "]"
          then removeBracketDigit u
          else String c (removeBracketDigit t)
      | _ => String c (removeBracketDigit t)
      end
  end.

(** [sanitizeColumnName] *)
Definition sanitizeColumnName (val : string) : string :=
  Trim (removeBracketDigit val) " ".

(** ** The data model *)

Record Candidate : Type := MkCandidate {
  Name : string;
  IssueCount : gmap string Z
}.

Record Debate : Type := MkDebate {
  Date : string;
  Candidates : list Candidate
}.

(** ** parseCsvData *)

(** [indexMap[sanitizedValue] = append(indexMap[sanitizedValue], k)] *)
Definition indexColumn (indexMap : gmap string (list nat)) (k : nat) (v : string)
  : gmap string (list nat) :=
  let sanitizedValue := sanitizeColumnName v in
  <[sanitizedValue := default [] (indexMap !! sanitizedValue) ++ [k]]> indexMap.

(** [for k, v := range data[0]], from column [k] on. *)
Fixpoint indexColumns (k : nat) (header : list string) (indexMap : gmap string (list nat))
  : gmap string (list nat) :=
  match header with
  | [] => indexMap
  | v :: header' => indexColumns (S k) header' (indexColumn indexMap k v)
  end.

(** The body of [if issue != ""]: 1 on the first occurrence, [++] after. *)
Definition countIssue (issueCount : gmap string Z) (issue : string) : gmap string Z :=
  match issueCount !! issue with
  | None => <[issue := 1]> issueCount
  | Some n => <[issue := wrap64 (n + 1)]> issueCount
  end.

(** [for _, issue := range issues] *)
Fixpoint countIssues (issues : list string) (issueCount : gmap string Z) : gmap string Z :=
  match issues with
  | [] => issueCount
  | issue :: issues' =>
      let issue := TrimSpace issue in
      countIssues issues'
        (if decide (issue = "") then issueCount else countIssue issueCount issue)
  end.

(** One candidate cell: [strings.Split(cell, ",")] and the loop above. *)
Definition countCell (cell : string) (issueCount : gmap string Z) : gmap string Z :=
  countIssues (Split cell ",") issueCount.

(** [for _, indexVal := range index] *)
Fixpoint countCells (index : list nat) (debateData : list string)
    (issueCount : gmap string Z) : result (gmap string Z) :=
  match index with
  | [] => Ok issueCount
  | indexVal :: index' =>
      cell ← elemAt debateData indexVal;
      countCells index' debateData (countCell cell issueCount)
  end.

(** [for rowKey, index := range indexMap], the entries in the order of the
    visit. *)
Fixpoint parseEntries (entries : list (string * list nat)) (debateData : list string)
    (debate : Debate) : result Debate :=
  match entries with
  | [] => Ok debate
  | (rowKey, index) :: entries' =>
      if Contains rowKey "Date" then
        if decide (1 < length index)%nat then Err DateColumnError
        else
          i0 ← elemAt index 0;
          cell ← elemAt debateData i0;
          parseEntries entries' debateData
            {| Date := cell; Candidates := Candidates debate |}
      else
        issueCount ← countCells index debateData ∅;
        parseEntries entries' debateData
          {| Date := Date debate;
             Candidates := Candidates debate
                           ++ [{| Name := rowKey; IssueCount := issueCount |}] |}
  end.

(** [for _, debateData := range data[1:]]; [n] numbers the rows, so that
    the map may be visited in another order for each of them. *)
Fixpoint parseRows (o : RangeOrder (string * list nat)) (indexMap : gmap string (list nat))
    (n : nat) (rows : list (list string)) (debates : list Debate) : result (list Debate) :=
  match rows with
  | [] => Ok debates
  | debateData :: rows' =>
      debate ← parseEntries (visit o n (map_to_list indexMap)) debateData
                 {| Date := ""; Candidates := [] |};
      parseRows o indexMap (S n) rows' (debates ++ [debate])
  end.

Definition parseCsvData (o : RangeOrder (string * list nat)) (data : list (list string))
  : result (list Debate) :=
  match data with
  | [] => Panic
  | header :: rows => parseRows o (indexColumns 0 header ∅) 0 rows []
  end.

(** ** getIssues *)

(** The first loop: the keys of the map [issues]. Inserting the keys of
    [candidate.IssueCount] one by one, in whatever order, adds its domain. *)
Definition collectIssues (debates : list Debate) : gset string :=
  fold_left
    (fun issues debate =>
       fold_left (fun issues candidate => issues ∪ dom (IssueCount candidate))
                 (Candidates debate) issues)
    debates ∅.

(** The second loop turns the map into a slice, in the order of the visit. *)
Definition getIssues (o : RangeOrder string) (debates : list Debate) : list string :=
  visit o 0%nat (elements (collectIssues debates)).

(** ** summarize *)

Definition string_ge (a b : string) : Prop := String.leb b a = true.

#[global] Instance string_ge_dec : RelDecision string_ge.
Proof. intros a b. unfold string_ge. apply _. Defined.

(** [sort.Sort(sort.Reverse(sort.StringSlice(s)))]: the strings in
    descending byte-wise order. Strings that compare equal are equal, so
    the sorted slice does not depend on the sorting algorithm. *)
Definition sortReverse (s : list string) : list string := merge_sort string_ge s.

(** The [switch h] that fills one cell of a data row. *)
Definition cellOf (debate : Debate) (candidate : Candidate) (h : string) : string :=
  if decide (h = "Date") then Date debate
  else if decide (h = "Candidate") then Name candidate
  else Itoa (default 0 (IssueCount candidate !! h)).

(** [for hk, h := range header { row[hk] = ... }], from column [hk] on.
    [row] is made with [len(header)] cells, so that [hk] is in range. *)
Fixpoint fillRow (debate : Debate) (candidate : Candidate) (hk : nat)
    (header : list string) (row : list string) : list string :=
  match header with
  | [] => row
  | h :: header' =>
      fillRow debate candidate (S hk) header' (<[hk := cellOf debate candidate h]> row)
  end.

Definition candidateRow (header : list string) (debate : Debate) (candidate : Candidate)
  : list string :=
  fillRow debate candidate 0 header (replicate (length header) "").

(** The two loops over debates and candidates, appending to [rows]. *)
Definition appendRows (header : list string) (debates : list Debate)
    (rows : list (list string)) : list (list string) :=
  fold_left
    (fun rows debate =>
       fold_left (fun rows candidate => rows ++ [candidateRow header debate candidate])
                 (Candidates debate) rows)
    debates rows.

(** [for rowNum := 1; rowNum < len(rows); rowNum++], over [rows[1:]]. *)
Fixpoint sumColumn (rows : list (list string)) (colNum : nat) (total : Z) : result Z :=
  match rows with
  | [] => Ok total
  | row :: rows' =>
      cell ← elemAt row colNum;
      match Atoi cell with
      | None => Err (AggregationError cell)
      | Some val => sumColumn rows' colNum (wrap64 (total + val))
      end
  end.

(** [for colNum := 2; colNum < len(rows[0]); colNum++], over the columns
    [colNums]; [finalRow] has [len(header)] cells, as [rows[0]] has. *)
Fixpoint sumColumns (colNums : list nat) (rows : list (list string))
    (finalRow : list string) : result (list string) :=
  match colNums with
  | [] => Ok finalRow
  | colNum :: colNums' =>
      total ← sumColumn (drop 1 rows) colNum 0;
      sumColumns colNums' rows (<[colNum := Itoa total]> finalRow)
  end.

(** The header has two cells at least: [finalRow[1]] is in range. *)
Definition summarize (o : RangeOrder string) (debates : list Debate)
  : result (list (list string)) :=
  let sortedIssues := sortReverse (getIssues o debates) in
  let header := ["Date"; "Candidate"] ++ sortedIssues in
  let rows := appendRows header debates [header] in
  let finalRow := <[1%nat := "Total"]> (replicate (length header) "") in
  row0 ← elemAt rows 0;
  finalRow ← sumColumns (seq 2 (length row0 - 2)) rows finalRow;
  Ok (rows ++ [finalRow]).

(** ** main, without the files

    [main] panics on the first error, and writes [output.csv] only after
    [summarize] has succeeded: [Some summary] is the table written, [None]
    a run that wrote nothing. *)
Definition pipeline (oi : RangeOrder (string * list nat)) (os : RangeOrder string)
    (csvFile : list (list string)) : result (list (list string)) :=
  debates ← parseCsvData oi csvFile;
  summarize os debates.

Definition main (oi : RangeOrder (string * list nat)) (os : RangeOrder string)
    (csvFile : list (list string)) : option (list (list string)) :=
  match pipeline oi os csvFile with
  | Ok summary => Some summary
  | _ => None
  end.

(** ** Notions used to state the properties *)

(** How many of the pieces of a cell are, once trimmed, the issue [issue]. *)
Definition occurrences (issue : string) (pieces : list string) : Z :=
  Z.of_nat (length (filter (fun p => TrimSpace p = issue) pieces)).

(** The normalisation in the words of the specification, to compare with
    [sanitizeColumnName]: a bracketed digit that ends the header text is
    stripped, then the white space around what is left is trimmed. *)
Definition stripBracketSuffix (s : string) : string :=
  match revString s with
  | String c2 (String c1 (String c0 r)) =>
      if Ascii.eqb c0 "[" && isDigit c1 && Ascii.eqb c2 "]" then revString r else s
  | _ => s
  end.

Definition specNormalize (s : string) : string := TrimSpace (stripBracketSuffix s).

(** The columns of [header], counted from [k], whose normalised name is
    [name], in the order of the header. *)
Fixpoint positions (name : string) (k : nat) (header : list string) : list nat :=
  match header with
  | [] => []
  | v :: header' =>
      if decide (sanitizeColumnName v = name)
      then k :: positions name (S k) header'
      else positions name (S k) header'
  end.

Definition startsWith (c : ascii) (s : string) : bool :=
  match s with
  | String a _ => Ascii.eqb a c
  | EmptyString => false
  end.

Definition endsWith (c : ascii) (s : string) : bool := startsWith c (revString s).

Fixpoint hasByte (c : ascii) (s : string) : bool :=
  match s with
  | String a s' => Ascii.eqb a c || hasByte c s'
  | EmptyString => false
  end.

Fixpoint spaces (n : nat) : string :=
  match n with
  | O => EmptyString
  | S n' => String " " (spaces n')
  end.

Definition tab : ascii := ascii_of_nat 9.

(** The header row of the table that [summarize] builds. *)
Definition headerOf (o : RangeOrder string) (debates : list Debate) : list string :=
  ["Date"; "Candidate"] ++ sortReverse (getIssues o debates).

(** The data rows of one debate, one for each of its candidates, and the
    data rows of the table, debate after debate. *)
Definition blockOf (header : list string) (debate : Debate) : list (list string) :=
  map (fun candidate => map (cellOf debate candidate) header) (Candidates debate).

Definition dataRows (header : list string) (debates : list Debate) : list (list string) :=
  concat (map (blockOf header) debates).

(** The integers that column [colNum] of [rows] holds, if every row has
    that column and every cell of it reads as an [int]. *)
Definition columnValues (rows : list (list string)) (colNum : nat) : option (list Z) :=
  mapM (fun row => row !! colNum ≫= Atoi) rows.

Definition sumZ (vals : list Z) : Z := foldr Z.add 0 vals.

Definition string_gt (a b : string) : Prop := String.ltb b a = true.

(** What the table must be for its last row to be the row of totals:
    the header, the data rows, and a final row with an empty first cell,
    "Total" in the second and, in every issue column, the sum of the
    integers of that column over the data rows, as Go's [int] adds them
    up, which is the exact sum whenever that fits an [int]. *)
Definition hasTotalRow (header : list string) (rows table : list (list string)) : Prop :=
  exists finalRow,
    table = header :: rows ++ [finalRow]
    /\ last table = Some finalRow
    /\ length finalRow = length header
    /\ finalRow !! 0%nat = Some ""
    /\ finalRow !! 1%nat = Some "Total"
    /\ forall colNum,
        (2 <= colNum < length header)%nat ->
        exists vals,
          columnValues rows colNum = Some vals
          /\ finalRow !! colNum = Some (Itoa (wrap64 (sumZ vals)))
          /\ (inInt (sumZ vals) -> finalRow !! colNum = Some (Itoa (sumZ vals))).

(** Every count of the debates is a value of Go's [int]. *)
Definition intCounts (debates : list Debate) : Prop :=
  forall d c i n,
    d ∈ debates -> c ∈ Candidates d -> IssueCount c !! i = Some n -> inInt n.

(** The counts that the cells [index] of a row add up to, where every
    cell is there. *)
Definition issueCountOf (index : list nat) (debateData : list string) : gmap string Z :=
  fold_left
    (fun issueCount indexVal =>
       match debateData !! indexVal with
       | Some cell => countCell cell issueCount
       | None => issueCount
       end)
    index ∅.

(** The candidate of an entry of the index map, on one row. *)
Definition candidateOf (debateData : list string) (entry : string * list nat) : Candidate :=
  {| Name := entry.1; IssueCount := issueCountOf entry.2 debateData |}.

Definition isDateEntry (entry : string * list nat) : bool := Contains entry.1 "Date".

(** The date that the entries leave in the debate: the cell of the date
    entry visited last, if there is one. *)
Definition dateOf (entries : list (string * list nat)) (debateData : list string)
    (date : string) : string :=
  match last (filter (fun entry => isDateEntry entry = true) entries) with
  | Some entry => default "" (head entry.2 ≫= fun i0 => debateData !! i0)
  | None => date
  end.

(** Every cell that the entries name is there. *)
Definition inRange (entries : list (string * list nat)) (debateData : list string) : Prop :=
  Forall (fun entry : string * list nat =>
            Forall (fun i => (i < length debateData)%nat) entry.2)
         entries.

(** Every entry names a column. *)
Definition nonEmptyIndex (entries : list (string * list nat)) : Prop :=
  Forall (fun entry : string * list nat => entry.2 <> []) entries.

(** A date entry that groups more than one column. *)
Definition dateClash (entries : list (string * list nat)) : Prop :=
  Exists (fun entry : string * list nat =>
            isDateEntry entry = true /\ (1 < length entry.2)%nat)
         entries.

(** Two debates with the same date and the same candidates, in some order. *)
Definition sameDebate (d1 d2 : Debate) : Prop :=
  Date d1 = Date d2 /\ Candidates d1 ≡ₚ Candidates d2.

(** The date-bearing columns of the header have one normalised name. *)
Definition uniqueDateName (header : list string) : Prop :=
  forall h1 h2,
    h1 ∈ header -> h2 ∈ header ->
    Contains (sanitizeColumnName h1) "Date" = true ->
    Contains (sanitizeColumnName h2) "Date" = true ->
    sanitizeColumnName h1 = sanitizeColumnName h2.

(** Two tables with the same header row and the same Total row whose
    data rows are, debate after debate, the candidate rows of [debates] in
    the one table and of [debates'] in the other, the rows of each debate
    of [debates] being those of the debate at the same place of
    [debates'], in some order. *)
Definition sameUpToCandidateOrder (debates debates' : list Debate)
    (table table' : list (list string)) : Prop :=
  exists header finalRow,
    table = header :: concat (map (blockOf header) debates) ++ [finalRow]
    /\ table' = header :: concat (map (blockOf header) debates') ++ [finalRow]
    /\ Forall2 (fun debate debate' => blockOf header debate ≡ₚ blockOf header debate')
               debates debates'.

(** ** Inputs used as examples *)

(** The example of the specification. *)
Definition exampleCsv : list (list string) :=
  [["Date"; "A [1]"; "A [2]"]; ["2020-01-01"; "Tax, Jobs"; "Jobs"]].

Definition exampleDebates : list Debate :=
  [{| Date := "2020-01-01";
      Candidates := [{| Name := "A"; IssueCount := {[ "Tax" := 1; "Jobs" := 2 ]} |}] |}].

Definition exampleTable : list (list string) :=
  [["Date"; "Candidate"; "Tax"; "Jobs"]; ["2020-01-01"; "A"; "1"; "2"];
   [""; "Total"; "1"; "2"]].

(** A candidate who mentions the issue "Date". *)
Definition dateIssueCsv (date : string) : list (list string) :=
  [["Date"; "A"]; [date; "Date"]].

Definition dateIssueDebate (date : string) : Debate :=
  {| Date := date;
     Candidates := [{| Name := "A"; IssueCount := {[ "Date" := 1 ]} |}] |}.

Definition maxIntText : string := "9223372036854775807".

(** ** Notions used for the further properties *)

(** [candidate.IssueCount[h]]: the count of an issue, 0 when it is absent. *)
Definition countOf (candidate : Candidate) (issue : string) : Z :=
  default 0 (IssueCount candidate !! issue).

(** The candidates of all debates with their debate, in the order in
    which [summarize] walks them. *)
Definition allCandidates (debates : list Debate) : list (Debate * Candidate) :=
  concat (map (fun debate => map (pair debate) (Candidates debate)) debates).

(** The data row of one candidate and the row of totals, written with the
    counts. *)
Definition countRow (issues : list string) (p : Debate * Candidate) : list string :=
  [Date p.1; Name p.2] ++ map (fun h => Itoa (countOf p.2 h)) issues.

Definition countTotals (issues : list string) (debates : list Debate) : list string :=
  [""; "Total"]
  ++ map (fun h => Itoa (wrap64 (sumZ (map (fun p : Debate * Candidate => countOf p.2 h)
                                           (allCandidates debates)))))
         issues.

(** No issue has the text of one of the two fixed header cells. *)
Definition noReservedIssue (debates : list Debate) : Prop :=
  ("Date" ∉ collectIssues debates) /\ ("Candidate" ∉ collectIssues debates).

(** How often the issue occurs in the cells [index] of a row. *)
Definition cellOccurrences (issue : string) (index : list nat) (debateData : list string)
  : Z :=
  sumZ (map (fun i => match debateData !! i with
                      | Some cell => occurrences issue (Split cell ",")
                      | None => 0
                      end)
            index).

(** No two columns of the header share a date-bearing normalised name. *)
Definition noDateClash (header : list string) : Prop :=
  forall j1 j2 h1 h2,
    header !! j1 = Some h1 -> header !! j2 = Some h2 ->
    sanitizeColumnName h1 = sanitizeColumnName h2 ->
    Contains (sanitizeColumnName h1) "Date" = true ->
    j1 = j2.

(** No piece of a cell of the rows is, once trimmed, the text [issue]. *)
Definition neverMentions (issue : string) (rows : list (list string)) : Prop :=
  forall debateData cell piece,
    debateData ∈ rows -> cell ∈ debateData -> piece ∈ Split cell "," ->
    TrimSpace piece <> issue.

(** * Properties *)

(** ** Sanity checks on the string and number primitives *)

Example sanitize_ex1 : sanitizeColumnName "Jane Doe [1]" = "Jane Doe".
Proof. reflexivity. Qed.

Example atoi_ex1 : Atoi "-12" = Some (-12) /\ Atoi "+7" = Some 7 /\ Atoi "" = None
  /\ Atoi "9223372036854775808" = None /\ Atoi "-9223372036854775808" = Some minInt
  /\ Atoi "2020-01-01" = None /\ Itoa (-40) = "-40" /\ Itoa 0 = "0".
Proof. vm_compute. repeat split; reflexivity. Qed.

(** Tabs and the no-break space U+00A0 (bytes C2 A0) are white space for
    [TrimSpace]; a lone byte A0 is no rune and stays. *)
Example trimspace_ex1 :
  TrimSpace (String tab (String (ascii_of_nat 194) (String (ascii_of_nat 160) " Jobs ")))
  = "Jobs"
  /\ TrimSpace (String (ascii_of_nat 160) " Jobs") = String (ascii_of_nat 160) " Jobs"
  /\ Trim (String tab " Jobs ") " " = String tab " Jobs".
Proof. vm_compute. repeat split; reflexivity. Qed.

Example pipeline_ex1 :
  pipeline inOrder inOrder [["Date"; "A [1]"; "A [2]"]; ["2020-01-01"; "Tax, Jobs"; "Jobs"]]
  = Ok [["Date"; "Candidate"; "Tax"; "Jobs"]; ["2020-01-01"; "A"; "1"; "2"];
        [""; "Total"; "1"; "2"]].
Proof. vm_compute. reflexivity. Qed.

(** ** Go's [int] and [strconv] *)

Lemma wrap64_inInt (n : Z) : inInt (wrap64 n).
Proof.
  unfold inInt, wrap64, minInt, maxInt.
  pose proof (Z.mod_pos_bound (n + 2 ^ 63) (2 ^ 64)). lia.
Qed.

Lemma wrap64_id (n : Z) : inInt n -> wrap64 n = n.
Proof.
  unfold inInt, wrap64, minInt, maxInt. intros H. rewrite Z.mod_small; lia.
Qed.

Lemma wrap64_add_l (a b : Z) : wrap64 (wrap64 a + b) = wrap64 (a + b).
Proof.
  unfold wrap64.
  replace ((a + 2 ^ 63) mod 2 ^ 64 - 2 ^ 63 + b + 2 ^ 63)
    with ((a + 2 ^ 63) mod 2 ^ 64 + b) by lia.
  rewrite Zplus_mod_idemp_l. do 2 f_equal. lia.
Qed.

Lemma inIntb_inInt (n : Z) : inIntb n = true <-> inInt n.
Proof.
  unfold inIntb, inInt. rewrite andb_true_iff, !Z.leb_le. tauto.
Qed.

Ltac digit_case :=
  first [ change (digitOf _) with (Some 0) | change (digitOf _) with (Some 1)
        | change (digitOf _) with (Some 2) | change (digitOf _) with (Some 3)
        | change (digitOf _) with (Some 4) | change (digitOf _) with (Some 5)
        | change (digitOf _) with (Some 6) | change (digitOf _) with (Some 7)
        | change (digitOf _) with (Some 8) | change (digitOf _) with (Some 9) ];
  cbv iota beta.

Lemma atoiDigits_acc (u : Decimal.uint) (acc : positive) :
  atoiDigits (NilEmpty.string_of_uint u) (Z.pos acc)
  = Some (Z.pos (Pos.of_uint_acc u acc)).
Proof.
  revert acc.
  induction u; intros acc; cbn [NilEmpty.string_of_uint atoiDigits Pos.of_uint_acc];
    [reflexivity | ..]; digit_case; rewrite <- IHu; f_equal; lia.
Qed.

Lemma atoiDigits_zero (u : Decimal.uint) :
  atoiDigits (NilEmpty.string_of_uint u) 0 = Some (Z.of_N (Pos.of_uint u)).
Proof.
  induction u; cbn [NilEmpty.string_of_uint atoiDigits Pos.of_uint];
    [reflexivity | ..]; digit_case; [exact IHu | ..]; apply (atoiDigits_acc u).
Qed.

Lemma string_of_uint_head (u : Decimal.uint) :
  u <> Decimal.Nil ->
  exists c s, NilEmpty.string_of_uint u = String c s
              /\ Ascii.eqb c "-" = false /\ Ascii.eqb c "+" = false.
Proof.
  destruct u; intros Hu; [congruence | ..]; cbn [NilEmpty.string_of_uint];
    eexists _, _; (split; [reflexivity | split; reflexivity]).
Qed.

Lemma string_of_uint_pos (p : positive) :
  NilZero.string_of_uint (Pos.to_uint p) = NilEmpty.string_of_uint (Pos.to_uint p).
Proof.
  unfold NilZero.string_of_uint.
  pose proof (Unsigned.to_uint_nonnil p). destruct (Pos.to_uint p); congruence.
Qed.

(** What [Itoa] prints, [Atoi] reads back. *)
Lemma Atoi_Itoa (n : Z) : inInt n -> Atoi (Itoa n) = Some n.
Proof.
  intros Hn. apply inIntb_inInt in Hn.
  destruct n as [|p|p]; unfold Itoa; cbn [Z.to_int NilZero.string_of_int].
  - reflexivity.
  - rewrite string_of_uint_pos.
    destruct (string_of_uint_head (Pos.to_uint p) (Unsigned.to_uint_nonnil p))
      as (c & s & Hs & Hm & Hp).
    pose proof (atoiDigits_zero (Pos.to_uint p)) as Hd.
    rewrite Unsigned.of_to in Hd. rewrite Hs in *.
    unfold Atoi. rewrite Hm, Hp. cbn [orb]. rewrite Hd. cbv zeta.
    change (Z.of_N (N.pos p)) with (Z.pos p). rewrite Hn. reflexivity.
  - rewrite string_of_uint_pos.
    destruct (string_of_uint_head (Pos.to_uint p) (Unsigned.to_uint_nonnil p))
      as (c & s & Hs & _ & _).
    pose proof (atoiDigits_zero (Pos.to_uint p)) as Hd.
    rewrite Unsigned.of_to in Hd. rewrite Hs in *.
    unfold Atoi. change (Ascii.eqb "-" "-") with true. cbn [orb]. rewrite Hd.
    cbv zeta. change (- Z.of_N (N.pos p)) with (Z.neg p). rewrite Hn. reflexivity.
Qed.

Lemma Atoi_inInt (s : string) (n : Z) : Atoi s = Some n -> inInt n.
Proof.
  unfold Atoi. destruct s as [|c s']; [discriminate|].
  cbv zeta.
  destruct (if Ascii.eqb c "-" || Ascii.eqb c "+" then s' else String c s');
    [discriminate|].
  destruct (atoiDigits _ 0) as [un|]; [|discriminate].
  destruct (inIntb _) eqn:Hb; [|discriminate].
  intros [= <-]. apply inIntb_inInt. exact Hb.
Qed.

(** ** White space is trimmed to the end: the fuel of [dropWhileSome] *)

Lemma leadingSpace_shorter (s s' : string) :
  leadingSpace s = Some s' -> (String.length s' < String.length s)%nat.
Proof.
  unfold leadingSpace. intros H.
  repeat (match type of H with
          | context [match ?x with EmptyString => _ | String _ _ => _ end] => destruct x
          | context [if ?b then _ else _] => destruct b
          end; try discriminate);
    injection H as <-; cbn [String.length]; lia.
Qed.

Lemma trailingSpace_shorter (s s' : string) :
  trailingSpace s = Some s' -> (String.length s' < String.length s)%nat.
Proof.
  unfold trailingSpace. intros H.
  repeat (match type of H with
          | context [match ?x with EmptyString => _ | String _ _ => _ end] => destruct x
          | context [if ?b then _ else _] => destruct b
          end; try discriminate);
    injection H as <-; cbn [String.length]; lia.
Qed.

Lemma dropWhileSome_done (step : string -> option string) :
  (forall s s', step s = Some s' -> (String.length s' < String.length s)%nat) ->
  forall fuel s, (String.length s <= fuel)%nat ->
                 step (dropWhileSome step fuel s) = None.
Proof.
  intros Hstep. induction fuel as [|fuel IH]; intros s Hlen; cbn [dropWhileSome].
  - destruct (step s) as [s'|] eqn:E; [|reflexivity].
    apply Hstep in E. lia.
  - destruct (step s) as [s'|] eqn:E; [|exact E].
    apply IH. apply Hstep in E. lia.
Qed.

(** [TrimSpace] leaves no white space at the left of its result, and the
    loop at the right stops for want of white space, not of fuel. *)
Lemma TrimSpace_total (s : string) :
  let l := dropWhileSome leadingSpace (String.length s) s in
  leadingSpace l = None
  /\ trailingSpace (dropWhileSome trailingSpace (String.length l) (revString l)) = None.
Proof.
  cbv zeta. split.
  - apply dropWhileSome_done; [apply leadingSpace_shorter | lia].
  - apply dropWhileSome_done; [apply trailingSpace_shorter |].
    unfold revString.
    rewrite <- (list_ascii_of_string_of_list_ascii (rev _)) at 1.
    generalize (dropWhileSome leadingSpace (String.length s) s). intros l.
    assert (Hl : forall t, String.length t = length (list_ascii_of_string t)).
    { induction t; cbn; congruence. }
    rewrite !Hl, string_of_list_ascii_of_string, list_ascii_of_string_of_list_ascii.
    rewrite length_rev. lia.
Qed.

(** ** The record parser: one candidate cell *)

Lemma countIssue_lookup (issueCount : gmap string Z) (issue i : string) :
  countIssue issueCount issue !! i
  = if decide (issue = i)
    then Some (wrap64 (default 0 (issueCount !! i) + 1))
    else issueCount !! i.
Proof.
  unfold countIssue. case_decide as Hi.
  - subst i. destruct (issueCount !! issue) as [n|];
      rewrite lookup_insert_eq; reflexivity.
  - destruct (issueCount !! issue); rewrite lookup_insert_ne; done.
Qed.

Lemma occurrences_cons (issue p : string) (ps : list string) :
  occurrences issue (p :: ps)
  = (if decide (TrimSpace p = issue) then 1 else 0) + occurrences issue ps.
Proof.
  unfold occurrences. rewrite filter_cons.
  case_decide; cbn [length]; lia.
Qed.

Lemma occurrences_nonneg (issue : string) (ps : list string) : 0 <= occurrences issue ps.
Proof. unfold occurrences. lia. Qed.

Lemma countIssues_lookup (pieces : list string) (issueCount : gmap string Z) (i : string) :
  countIssues pieces issueCount !! i
  = if decide (i = "" \/ occurrences i pieces = 0)
    then issueCount !! i
    else Some (wrap64 (default 0 (issueCount !! i) + occurrences i pieces)).
Proof.
  revert issueCount.
  induction pieces as [|p ps IH]; intros issueCount; cbn [countIssues].
  - rewrite decide_True; [reflexivity | right; reflexivity].
  - rewrite IH, occurrences_cons. clear IH.
    pose proof (occurrences_nonneg i ps) as Hnn.
    destruct (decide (TrimSpace p = "")) as [He|He].
    + (* an empty piece is discarded *)
      destruct (decide (TrimSpace p = i)) as [Hi|Hi].
      * assert (i = "") by congruence.
        rewrite !decide_True by (left; assumption). reflexivity.
      * rewrite Z.add_0_l. reflexivity.
    + rewrite countIssue_lookup.
      destruct (decide (TrimSpace p = i)) as [Hi|Hi].
      * assert (Hne : i <> "") by congruence.
        rewrite (decide_False (P := i = "" \/ 1 + _ = 0)) by (intros [?|?]; [done | lia]).
        case_decide as Hz.
        -- destruct Hz as [?|Hz]; [done|]. rewrite Hz, Z.add_0_r. reflexivity.
        -- cbn [from_option id]. rewrite wrap64_add_l. do 2 f_equal. lia.
      * rewrite Z.add_0_l. reflexivity.
Qed.

(** ** Column names: [sanitizeColumnName] and the column indexer *)

Lemma string_app_cons (c : ascii) (a b : string) : String c a +:+ b = String c (a +:+ b).
Proof. reflexivity. Qed.

Lemma list_ascii_of_string_app (a b : string) :
  list_ascii_of_string (a +:+ b) = list_ascii_of_string a ++ list_ascii_of_string b.
Proof.
  induction a as [|c a IH]; [reflexivity|].
  rewrite string_app_cons. cbn [list_ascii_of_string]. rewrite IH. reflexivity.
Qed.

Lemma string_of_list_ascii_app (l1 l2 : list ascii) :
  string_of_list_ascii (l1 ++ l2) = string_of_list_ascii l1 +:+ string_of_list_ascii l2.
Proof.
  induction l1 as [|c l1 IH]; [reflexivity|].
  cbn [app string_of_list_ascii]. rewrite IH. reflexivity.
Qed.

Lemma revString_app (a b : string) : revString (a +:+ b) = revString b +:+ revString a.
Proof.
  unfold revString.
  rewrite list_ascii_of_string_app, rev_app_distr. apply string_of_list_ascii_app.
Qed.

Lemma revString_involutive (s : string) : revString (revString s) = s.
Proof.
  unfold revString.
  rewrite list_ascii_of_string_of_list_ascii, rev_involutive.
  apply string_of_list_ascii_of_string.
Qed.

Lemma spaces_snoc (n : nat) : spaces n +:+ " " = String " " (spaces n).
Proof.
  induction n as [|n IH]; [reflexivity|].
  change (String " " (spaces n +:+ " ") = String " " (String " " (spaces n))).
  rewrite IH. reflexivity.
Qed.

Lemma revString_spaces (n : nat) : revString (spaces n) = spaces n.
Proof.
  induction n as [|n IH]; [reflexivity|].
  change (spaces (S n)) with (String " " EmptyString +:+ spaces n) at 1.
  rewrite revString_app, IH. apply spaces_snoc.
Qed.

Lemma string_app_nil_l (s : string) : "" +:+ s = s.
Proof. reflexivity. Qed.

Lemma string_app_assoc_r (a b c : string) : (a +:+ b) +:+ c = a +:+ (b +:+ c).
Proof.
  induction a as [|x a IH]; [reflexivity|].
  rewrite !string_app_cons, IH. reflexivity.
Qed.

Lemma string_app_nil_r (s : string) : s +:+ "" = s.
Proof. induction s as [|c s IH]; [reflexivity|]. rewrite string_app_cons, IH. reflexivity. Qed.

Lemma trimLeftByte_spaces (n : nat) (s : string) :
  trimLeftByte " " (spaces n +:+ s) = trimLeftByte " " s.
Proof. induction n as [|n IH]; [reflexivity | exact IH]. Qed.

Lemma trimLeftByte_id (c : ascii) (s : string) :
  startsWith c s = false -> trimLeftByte c s = s.
Proof. destruct s as [|a s]; cbn; [reflexivity|]. intros ->. reflexivity. Qed.

Lemma startsWith_app (c : ascii) (s t : string) :
  s <> "" -> startsWith c (s +:+ t) = startsWith c s.
Proof. destruct s; [congruence | reflexivity]. Qed.

Lemma Trim_spaces (s : string) (n m : nat) :
  startsWith " " s = false -> endsWith " " s = false ->
  Trim (spaces n +:+ s +:+ spaces m) " " = s.
Proof.
  intros Hs He. unfold Trim, trimRightByte.
  rewrite !revString_app, !revString_spaces, string_app_assoc_r, trimLeftByte_spaces.
  destruct (decide (s = "")) as [->|Hne].
  - change (revString "" +:+ spaces n) with (spaces n).
    rewrite <- (string_app_nil_r (spaces n)), trimLeftByte_spaces. reflexivity.
  - assert (Hr : revString s <> "").
    { intros Hr. apply Hne. rewrite <- (revString_involutive s), Hr. reflexivity. }
    rewrite (trimLeftByte_id _ (revString s +:+ _))
      by (rewrite startsWith_app; assumption).
    rewrite revString_app, revString_spaces, revString_involutive, trimLeftByte_spaces.
    apply trimLeftByte_id. exact Hs.
Qed.

Lemma removeBracketDigit_cons (c : ascii) (t : string) :
  removeBracketDigit (String c t)
  = match t with
    | String d (String e u) =>
        if Ascii.eqb c "[" && isDigit d && Ascii.eqb e "]"
        then removeBracketDigit u
        else String c (removeBracketDigit t)
    | _ => String c (removeBracketDigit t)
    end.
Proof. reflexivity. Qed.

(** An occurrence of the pattern is deleted wherever it stands: no match
    of the scan can straddle its first byte. *)
Lemma removeBracketDigit_app (a b : string) (d : ascii) :
  isDigit d = true ->
  removeBracketDigit (a +:+ String "[" (String d (String "]" b)))
  = removeBracketDigit a +:+ removeBracketDigit b.
Proof.
  intros Hd.
  assert (H0 : removeBracketDigit (String "[" (String d (String "]" b)))
               = removeBracketDigit b).
  { rewrite removeBracketDigit_cons, Hd. reflexivity. }
  remember (String.length a) as n eqn:Hn.
  revert a Hn. induction n as [n IH] using lt_wf_ind. intros a Hn.
  destruct a as [|c [|d' [|e a'']]].
  - exact H0.
  - rewrite ?string_app_cons, ?string_app_nil_l. rewrite removeBracketDigit_cons.
    replace (Ascii.eqb c "[" && isDigit "[" && Ascii.eqb d "]") with false
      by (rewrite andb_false_r; reflexivity).
    rewrite H0. reflexivity.
  - rewrite ?string_app_cons, ?string_app_nil_l. rewrite removeBracketDigit_cons.
    replace (Ascii.eqb c "[" && isDigit d' && Ascii.eqb "[" "]") with false
      by (rewrite andb_false_r; reflexivity).
    assert (H1 := IH 1%nat ltac:(subst n; cbn; lia) (String d' "") eq_refl).
    rewrite string_app_cons, string_app_nil_l in H1. rewrite H1. reflexivity.
  - rewrite ?string_app_cons, ?string_app_nil_l.
    rewrite (removeBracketDigit_cons c (String d' (String e (a'' +:+ _)))).
    rewrite (removeBracketDigit_cons c (String d' (String e a''))).
    destruct (Ascii.eqb c "[" && isDigit d' && Ascii.eqb e "]").
    + apply (IH (String.length a'')); [subst n; cbn; lia | reflexivity].
    + change (String d' (String e (a'' +:+ String "[" (String d (String "]" b)))))
        with (String d' (String e a'') +:+ String "[" (String d (String "]" b))).
      rewrite (IH (String.length (String d' (String e a''))));
        [reflexivity | subst n; cbn; lia | reflexivity].
Qed.

(** A text without an opening bracket is left as it is. *)
Lemma removeBracketDigit_id (s : string) :
  hasByte "[" s = false -> removeBracketDigit s = s.
Proof.
  induction s as [|c t IH]; [reflexivity|].
  cbn [hasByte]. intros [Hc Ht]%orb_false_elim.
  rewrite removeBracketDigit_cons, Hc. cbn [andb].
  rewrite (IH Ht). destruct t as [|? [|? ?]]; reflexivity.
Qed.

Lemma indexColumns_lookup (header : list string) (k : nat)
    (indexMap : gmap string (list nat)) (name : string) :
  indexColumns k header indexMap !! name
  = match positions name k header with
    | [] => indexMap !! name
    | ps => Some (default [] (indexMap !! name) ++ ps)
    end.
Proof.
  revert k indexMap.
  induction header as [|v header IH]; intros k indexMap; cbn [indexColumns positions].
  - reflexivity.
  - rewrite IH. unfold indexColumn. case_decide as Hv.
    + subst name. rewrite lookup_insert_eq. cbn [from_option id].
      destruct (positions _ (S k) header); [reflexivity|].
      rewrite <- app_assoc. reflexivity.
    + rewrite lookup_insert_ne by exact Hv. reflexivity.
Qed.

Lemma positions_spec (name : string) (header : list string) (k j : nat) :
  j ∈ positions name k header
  <-> exists v, (k <= j)%nat /\ header !! (j - k)%nat = Some v /\ sanitizeColumnName v = name.
Proof.
  revert k. induction header as [|v header IH]; intros k; cbn [positions].
  - split; [intros H; inversion H | intros (v & _ & H & _); discriminate].
  - assert (Hrec : j ∈ positions name (S k) header
                   <-> exists w, (k < j)%nat /\ (v :: header) !! (j - k)%nat = Some w
                                 /\ sanitizeColumnName w = name).
    { rewrite IH. split; intros (w & Hle & Hw & Hn); exists w; (split; [lia|]);
        (split; [|exact Hn]).
      - replace (j - k)%nat with (S (j - S k)) by lia. exact Hw.
      - replace (j - k)%nat with (S (j - S k)) in Hw by lia. exact Hw. }
    case_decide as Hv.
    + rewrite elem_of_cons, Hrec. split.
      * intros [->|(w & Hlt & Hw & Hn)].
        -- exists v. rewrite Nat.sub_diag. auto.
        -- exists w. split; [lia | auto].
      * intros (w & Hle & Hw & Hn).
        destruct (decide (j = k)) as [->|Hne]; [left; reflexivity|].
        right. exists w. split; [lia | auto].
    + rewrite Hrec. split.
      * intros (w & Hlt & Hw & Hn). exists w. split; [lia | auto].
      * intros (w & Hle & Hw & Hn).
        destruct (decide (j = k)) as [->|Hne].
        -- rewrite Nat.sub_diag in Hw. injection Hw as <-. contradiction.
        -- exists w. split; [lia | auto].
Qed.

Lemma positions_sorted (name : string) (header : list string) (k : nat) :
  StronglySorted lt (positions name k header)
  /\ Forall (fun j => (k <= j)%nat) (positions name k header).
Proof.
  revert k. induction header as [|v header IH]; intros k; cbn [positions].
  - split; constructor.
  - destruct (IH (S k)) as [Hs Hf]. case_decide.
    + split.
      * constructor; [exact Hs|]. eapply Forall_impl; [exact Hf|]. cbn. lia.
      * constructor; [lia|]. eapply Forall_impl; [exact Hf|]. cbn. lia.
    + split; [exact Hs|]. eapply Forall_impl; [exact Hf|]. cbn. lia.
Qed.

Lemma hasByte_app (c : ascii) (a b : string) :
  hasByte c (a +:+ b) = hasByte c a || hasByte c b.
Proof.
  induction a as [|x a IH]; [reflexivity|].
  rewrite string_app_cons. cbn [hasByte]. rewrite IH, orb_assoc. reflexivity.
Qed.

Lemma hasByte_spaces (n : nat) : hasByte "[" (spaces n) = false.
Proof. induction n as [|n IH]; [reflexivity | exact IH]. Qed.

Lemma sanitizeColumnName_padded (s : string) (n m : nat) :
  hasByte "[" s = false -> startsWith " " s = false -> endsWith " " s = false ->
  sanitizeColumnName (spaces n +:+ s +:+ spaces m) = s.
Proof.
  intros Hb Hs He. unfold sanitizeColumnName.
  rewrite removeBracketDigit_id.
  - apply Trim_spaces; assumption.
  - rewrite !hasByte_app, !hasByte_spaces, Hb. reflexivity.
Qed.

(** C4, as the code has it. The normalisation deletes every occurrence of
    a bracketed decimal digit, wherever it stands in the header text (one
    pass from the left), and then trims the space characters (the byte
    0x20 alone) around the result; a header [label [d]] whose label has
    no opening bracket and no space at either end is normalised to its
    label. The column indexer maps every normalised name to the positions
    of the columns that carry it, in the order of the header, and has no
    other key; the header Date, Jane Doe [1], Jane Doe [2] maps Date to
    [0] and Jane Doe to [1, 2]. *)
Theorem C4_normalisation_and_grouping :
  (forall (a b : string) (d : ascii),
      isDigit d = true ->
      sanitizeColumnName (a +:+ String "[" (String d (String "]" b)))
      = Trim (removeBracketDigit a +:+ removeBracketDigit b) " ")
  /\ (forall (s : string) (n m : nat),
         hasByte "[" s = false -> startsWith " " s = false -> endsWith " " s = false ->
         sanitizeColumnName (spaces n +:+ s +:+ spaces m) = s)
  /\ (forall (label : string) (d : ascii),
         isDigit d = true ->
         hasByte "[" label = false ->
         startsWith " " label = false -> endsWith " " label = false ->
         sanitizeColumnName (label +:+ String " " (String "[" (String d (String "]" ""))))
         = label)
  /\ (forall (header : list string) (name : string),
         indexColumns 0 header ∅ !! name
         = match positions name 0 header with
           | [] => None
           | ps => Some ps
           end)
  /\ (forall (header : list string) (name : string) (j : nat),
         j ∈ positions name 0 header
         <-> exists v, header !! j = Some v /\ sanitizeColumnName v = name)
  /\ (forall (header : list string) (name : string),
         StronglySorted lt (positions name 0 header))
  /\ indexColumns 0 ["Date"; "Jane Doe [1]"; "Jane Doe [2]"] ∅
     = {[ "Date" := [0%nat]; "Jane Doe" := [1%nat; 2%nat] ]}.
Proof.
  split; [|split; [|split; [|split; [|split; [|split]]]]].
  - intros a b d Hd. unfold sanitizeColumnName.
    rewrite removeBracketDigit_app by exact Hd. reflexivity.
  - apply sanitizeColumnName_padded.
  - intros label d Hd Hb Hs He. unfold sanitizeColumnName.
    change (label +:+ String " " (String "[" (String d (String "]" ""))))
      with (label +:+ (String " " "" +:+ String "[" (String d (String "]" "")))).
    rewrite <- string_app_assoc_r.
    rewrite removeBracketDigit_app by exact Hd.
    rewrite removeBracketDigit_id
      by (rewrite hasByte_app, Hb; reflexivity).
    change (removeBracketDigit "") with "". rewrite string_app_nil_r.
    apply (Trim_spaces label 0 1 Hs He).
  - intros header name. rewrite indexColumns_lookup, lookup_empty.
    destruct (positions name 0 header); reflexivity.
  - intros header name j. rewrite positions_spec. rewrite Nat.sub_0_r.
    split; intros (v & H); exists v; [tauto | split; [lia | tauto]].
  - intros header name. apply positions_sorted.
  - vm_compute. reflexivity.
Qed.

Lemma C4_normalisation_and_grouping_witness :
  isDigit "1"%char = true
  /\ hasByte "[" "Jane Doe" = false
  /\ startsWith " " "Jane Doe" = false
  /\ endsWith " " "Jane Doe" = false
  /\ sanitizeColumnName ("Jane Doe" +:+ " [1]") = "Jane Doe"
  /\ sanitizeColumnName ("Jane" +:+ "[1]" +:+ " Doe ") = "Jane Doe".
Proof.
  split; [reflexivity|]. split; [reflexivity|]. split; [reflexivity|].
  split; [reflexivity|]. split.
  - apply (proj1 (proj2 (proj2 C4_normalisation_and_grouping)) "Jane Doe" "1"%char);
      reflexivity.
  - etransitivity;
      [ exact (proj1 C4_normalisation_and_grouping "Jane" " Doe " "1"%char eq_refl)
      | reflexivity ].
Defined.

(** C4, as the specification words it, fails on the code: a bracketed
    digit inside the text is deleted although it is no suffix, and a tab
    at the end of the text is white space that stays. *)
Lemma C4_counterexample :
  sanitizeColumnName "A[1]B" = "AB"
  /\ specNormalize "A[1]B" = "A[1]B"
  /\ sanitizeColumnName (String "D" (String tab "")) = String "D" (String tab "")
  /\ specNormalize (String "D" (String tab "")) = "D"
  /\ ~ (forall val : string, sanitizeColumnName val = specNormalize val).
Proof.
  split; [vm_compute; reflexivity|].
  split; [vm_compute; reflexivity|].
  split; [vm_compute; reflexivity|].
  split; [vm_compute; reflexivity|].
  intros H. specialize (H "A[1]B"). vm_compute in H. discriminate H.
Qed.

(** ** The descending order of [sort.Reverse(sort.StringSlice)] *)

Lemma string_leb_trans (a b c : string) :
  String.leb a b = true -> String.leb b c = true -> String.leb a c = true.
Proof.
  unfold String.leb. revert b c.
  induction a as [|x a IH]; intros [|y b] [|z c]; cbn [String.compare];
    try (intros; reflexivity || discriminate).
  unfold Ascii.compare.
  destruct (N.compare_spec (N_of_ascii x) (N_of_ascii y)) as [Hxy|Hxy|Hxy];
    destruct (N.compare_spec (N_of_ascii y) (N_of_ascii z)) as [Hyz|Hyz|Hyz];
    destruct (N.compare_spec (N_of_ascii x) (N_of_ascii z)) as [Hxz|Hxz|Hxz];
    try (intros; reflexivity || discriminate); try lia.
  apply IH.
Qed.

#[global] Instance string_ge_trans : Transitive string_ge.
Proof. intros a b c Hab Hbc. unfold string_ge in *. eapply string_leb_trans; eassumption. Qed.

#[global] Instance string_ge_total : Total string_ge.
Proof. intros a b. unfold string_ge. destruct (String.leb_total a b); auto. Qed.

#[global] Instance string_ge_antisym : AntiSymm eq string_ge.
Proof. intros a b Hab Hba. unfold string_ge in *. apply String.leb_antisym; assumption. Qed.

Lemma sortReverse_perm (l : list string) : sortReverse l ≡ₚ l.
Proof. apply merge_sort_Permutation. Qed.

Lemma sortReverse_sorted (l : list string) : StronglySorted string_ge (sortReverse l).
Proof. apply StronglySorted_merge_sort; apply _. Qed.

(** The sorted slice depends on the elements only, not on their order. *)
Lemma sortReverse_unique (l1 l2 : list string) :
  l1 ≡ₚ l2 -> sortReverse l1 = sortReverse l2.
Proof.
  intros Hp. apply (StronglySorted_unique string_ge); try apply sortReverse_sorted.
  rewrite !sortReverse_perm. exact Hp.
Qed.

(** Without duplicates, descending is strictly descending. *)
Lemma sortReverse_strict (l : list string) :
  NoDup l ->
  StronglySorted (fun a b => string_ge a b /\ a <> b) (sortReverse l).
Proof.
  intros Hnd. rewrite <- sortReverse_perm in Hnd.
  pose proof (sortReverse_sorted l) as Hs.
  induction Hs as [|a s Hs IH Hall]; [constructor|].
  apply NoDup_cons in Hnd as [Hna Hnd].
  constructor; [apply IH; exact Hnd|].
  apply Forall_forall. intros b Hb. split.
  - rewrite Forall_forall in Hall. apply Hall. exact Hb.
  - intros ->. contradiction.
Qed.

(** ** The issue collector *)

Lemma elem_of_collectIssues_from (debates : list Debate) (issues : gset string) (i : string) :
  i ∈ fold_left
        (fun issues debate =>
           fold_left (fun issues candidate => issues ∪ dom (IssueCount candidate))
                     (Candidates debate) issues)
        debates issues
  <-> i ∈ issues
      \/ exists d c, d ∈ debates /\ c ∈ Candidates d /\ is_Some (IssueCount c !! i).
Proof.
  assert (Hin : forall (cs : list Candidate) (s : gset string),
             i ∈ fold_left (fun issues candidate => issues ∪ dom (IssueCount candidate)) cs s
             <-> i ∈ s \/ exists c, c ∈ cs /\ is_Some (IssueCount c !! i)).
  { induction cs as [|c cs IH]; intros s; cbn [fold_left].
    - split; [auto | intros [?|(c & Hc & _)]; [assumption | inversion Hc]].
    - rewrite IH, elem_of_union, elem_of_dom. split.
      + intros [[?|?]|(c' & Hc' & ?)]; [auto | right; exists c | right; exists c'];
          (split; [|assumption]); [left | right; assumption].
      + intros [?|(c' & Hc' & ?)]; [auto|].
        apply elem_of_cons in Hc' as [->|Hc']; [auto|]. right. exists c'. auto. }
  revert issues. induction debates as [|d ds IH]; intros issues; cbn [fold_left].
  - split; [auto | intros [?|(d & c & Hd & _)]; [assumption | inversion Hd]].
  - rewrite IH, Hin. split.
    + intros [[?|(c & Hc & ?)]|(d' & c & Hd' & Hc & ?)]; [auto | right | right].
      * exists d, c. split; [left | auto].
      * exists d', c. split; [right; assumption | auto].
    + intros [?|(d' & c & Hd' & Hc & ?)]; [auto|].
      apply elem_of_cons in Hd' as [->|Hd'].
      * left. right. exists c. auto.
      * right. exists d', c. auto.
Qed.

Lemma elem_of_collectIssues (debates : list Debate) (i : string) :
  i ∈ collectIssues debates
  <-> exists d c, d ∈ debates /\ c ∈ Candidates d /\ is_Some (IssueCount c !! i).
Proof.
  unfold collectIssues. rewrite elem_of_collectIssues_from. split.
  - intros [H|H]; [set_solver | exact H].
  - auto.
Qed.

Lemma getIssues_perm (o : RangeOrder string) (debates : list Debate) :
  getIssues o debates ≡ₚ elements (collectIssues debates).
Proof. apply visit_perm. Qed.

Lemma elem_of_getIssues (o : RangeOrder string) (debates : list Debate) (i : string) :
  i ∈ getIssues o debates
  <-> exists d c, d ∈ debates /\ c ∈ Candidates d /\ is_Some (IssueCount c !! i).
Proof. rewrite getIssues_perm, elem_of_elements. apply elem_of_collectIssues. Qed.

Lemma NoDup_getIssues (o : RangeOrder string) (debates : list Debate) :
  NoDup (getIssues o debates).
Proof. rewrite getIssues_perm. apply NoDup_elements. Qed.

Lemma collectIssues_perm (debates debates' : list Debate) :
  debates ≡ₚ debates' -> collectIssues debates = collectIssues debates'.
Proof.
  intros Hp. apply set_eq. intros i. rewrite !elem_of_collectIssues.
  split; intros (d & c & Hd & H); exists d, c; (split; [|exact H]).
  - rewrite <- Hp. exact Hd.
  - rewrite Hp. exact Hd.
Qed.

(** ** The table builder *)

Lemma fillRow_spec (debate : Debate) (candidate : Candidate) (header : list string) :
  forall (hk : nat) (row : list string),
    (hk + length header <= length row)%nat ->
    fillRow debate candidate hk header row
    = take hk row ++ map (cellOf debate candidate) header
      ++ drop (hk + length header) row.
Proof.
  induction header as [|h header IH]; intros hk row Hlen; cbn [fillRow map length] in *.
  - rewrite Nat.add_0_r. cbn [app]. symmetry. apply take_drop.
  - rewrite IH by (rewrite length_insert; lia).
    rewrite (take_S_r _ _ (cellOf debate candidate h))
      by (apply list_lookup_insert_eq; lia).
    rewrite take_insert_ge by lia.
    rewrite drop_insert_lt by lia.
    rewrite <- app_assoc. cbn [app].
    replace (S hk + length header)%nat with (hk + S (length header))%nat by lia.
    reflexivity.
Qed.

Lemma candidateRow_spec (header : list string) (debate : Debate) (candidate : Candidate) :
  candidateRow header debate candidate = map (cellOf debate candidate) header.
Proof.
  unfold candidateRow. rewrite fillRow_spec by (rewrite length_replicate; lia).
  rewrite drop_ge by (rewrite length_replicate; lia).
  cbn [take app]. apply app_nil_r.
Qed.

Lemma appendRows_spec (header : list string) (debates : list Debate)
    (rows : list (list string)) :
  appendRows header debates rows = rows ++ dataRows header debates.
Proof.
  unfold appendRows, dataRows. revert rows.
  induction debates as [|d ds IH]; intros rows; cbn [fold_left map concat].
  - symmetry. apply app_nil_r.
  - rewrite IH, app_assoc. f_equal. unfold blockOf.
    generalize (Candidates d) as cs. clear IH. intros cs. revert rows.
    induction cs as [|c cs IHc]; intros rows; cbn [fold_left map].
    + symmetry. apply app_nil_r.
    + rewrite IHc, <- app_assoc, candidateRow_spec. reflexivity.
Qed.

Lemma length_dataRow (header : list string) (debates : list Debate) (row : list string) :
  row ∈ dataRows header debates -> length row = length header.
Proof.
  unfold dataRows, blockOf. rewrite list_elem_of_In, in_concat.
  intros (block & Hb & Hr). apply in_map_iff in Hb as (d & <- & _).
  apply in_map_iff in Hr as (c & <- & _). apply length_map.
Qed.

(** The wrapped running total of [sumColumn] is the wrapped sum. *)
Lemma sumZ_cons (v : Z) (vals : list Z) : sumZ (v :: vals) = v + sumZ vals.
Proof. reflexivity. Qed.

Lemma sumColumn_Ok (rows : list (list string)) (colNum : nat) (total v : Z) :
  inInt total ->
  sumColumn rows colNum total = Ok v
  <-> exists vals, columnValues rows colNum = Some vals
                   /\ v = wrap64 (total + sumZ vals).
Proof.
  unfold columnValues. revert total v.
  induction rows as [|row rows IH]; intros total v Ht; cbn [sumColumn].
  - split.
    + intros [= <-]. exists []. split; [reflexivity|].
      change (sumZ []) with 0. rewrite Z.add_0_r, wrap64_id; auto.
    + intros (vals & Hv & ->). cbn in Hv. injection Hv as <-.
      change (sumZ []) with 0. rewrite Z.add_0_r, wrap64_id; auto.
  - unfold elemAt. cbn [mapM]. destruct (row !! colNum) as [cell|]; cbn.
    + destruct (Atoi cell) as [val|]; cbn.
      * rewrite IH by apply wrap64_inInt. split.
        -- intros (vals & Hv & ->). exists (val :: vals). rewrite Hv.
           split; [reflexivity|].
           rewrite wrap64_add_l, sumZ_cons. f_equal. lia.
        -- intros (vals & Hv & ->).
           destruct (mapM _ rows) as [vals'|]; cbn in Hv; [|discriminate].
           injection Hv as <-. exists vals'. split; [reflexivity|].
           rewrite wrap64_add_l, sumZ_cons. f_equal. lia.
      * split; [discriminate | intros (vals & Hv & _); discriminate].
    + split; [discriminate | intros (vals & Hv & _); discriminate].
Qed.

Lemma sumColumns_Ok (colNums : list nat) (rows : list (list string)) :
  forall (finalRow out : list string),
    sumColumns colNums rows finalRow = Ok out ->
    length out = length finalRow
    /\ (forall j, j ∉ colNums -> out !! j = finalRow !! j)
    /\ (forall j, j ∈ colNums -> (j < length finalRow)%nat ->
                  exists vals, columnValues (drop 1 rows) j = Some vals
                               /\ out !! j = Some (Itoa (wrap64 (sumZ vals)))).
Proof.
  induction colNums as [|colNum colNums IH]; intros finalRow out; cbn [sumColumns].
  - intros [= <-]. split; [reflexivity|]. split; [reflexivity|].
    intros j Hj. inversion Hj.
  - destruct (sumColumn (drop 1 rows) colNum 0) as [total| |] eqn:Hsum; cbn;
      [|discriminate..].
    intros Hout. apply IH in Hout as (Hlen & Hout & Hin).
    rewrite length_insert in Hlen, Hin.
    apply sumColumn_Ok in Hsum as (vals & Hvals & ->); [|unfold inInt, minInt, maxInt; lia].
    rewrite Z.add_0_l in *.
    split; [exact Hlen|]. split.
    + intros j Hj. apply not_elem_of_cons in Hj as [Hne Hj].
      rewrite Hout by exact Hj. apply list_lookup_insert_ne. congruence.
    + intros j Hj Hlt. destruct (decide (j ∈ colNums)) as [Hj'|Hj'].
      * apply Hin; assumption.
      * apply elem_of_cons in Hj as [->|Hj]; [|contradiction].
        exists vals. split; [exact Hvals|].
        rewrite Hout by exact Hj'. apply list_lookup_insert_eq. exact Hlt.
Qed.

(** The shape of every table that [summarize] returns. *)
Lemma summarize_Ok (o : RangeOrder string) (debates : list Debate)
    (table : list (list string)) :
  summarize o debates = Ok table ->
  exists finalRow,
    table = headerOf o debates :: dataRows (headerOf o debates) debates ++ [finalRow]
    /\ length finalRow = length (headerOf o debates)
    /\ finalRow !! 0%nat = Some ""
    /\ finalRow !! 1%nat = Some "Total"
    /\ forall colNum,
        (2 <= colNum < length (headerOf o debates))%nat ->
        exists vals,
          columnValues (dataRows (headerOf o debates) debates) colNum = Some vals
          /\ finalRow !! colNum = Some (Itoa (wrap64 (sumZ vals))).
Proof.
  unfold summarize. fold (headerOf o debates). cbv zeta.
  assert (Hh : (2 <= length (headerOf o debates))%nat) by (unfold headerOf; cbn; lia).
  generalize dependent (headerOf o debates). intros header Hh.
  rewrite appendRows_spec. cbn [app elemAt lookup list_lookup mbind result_mbind result_bind].
  destruct (sumColumns _ _ _) as [finalRow| |] eqn:Hsum; cbn; [|discriminate..].
  intros [= <-]. exists finalRow.
  apply sumColumns_Ok in Hsum as (Hlen & Hout & Hin).
  rewrite length_insert, length_replicate in Hlen, Hin.
  split; [reflexivity|]. split; [exact Hlen|]. split; [|split].
  - rewrite Hout by (rewrite elem_of_seq; lia).
    destruct header as [|? [|? ?]]; cbn in Hh; try lia. reflexivity.
  - rewrite Hout by (rewrite elem_of_seq; lia).
    destruct header as [|? [|? ?]]; cbn in Hh; try lia. reflexivity.
  - intros colNum Hc. apply Hin; [rewrite elem_of_seq|]; lia.
Qed.

(** C1, as the code has it. When [summarize] returns a table, its final
    row has an empty string in column 0, "Total" in column 1 and, in every
    issue column (index 2 and beyond), the decimal rendering of the sum of
    the integers of that column over the data rows, added up as Go's
    [int] adds (modulo 2^64, in the signed range): that is the exact sum
    whenever the exact sum fits an [int]. *)
Theorem C1_total_row (o : RangeOrder string) (debates : list Debate)
    (table : list (list string)) :
  summarize o debates = Ok table ->
  hasTotalRow (headerOf o debates) (dataRows (headerOf o debates) debates) table.
Proof.
  intros Hs. apply summarize_Ok in Hs as (finalRow & -> & Hlen & H0 & H1 & Hcols).
  exists finalRow. split; [reflexivity|]. split.
  - rewrite app_comm_cons. apply last_snoc.
  - split; [exact Hlen|]. split; [exact H0|]. split; [exact H1|].
    intros colNum Hc. destruct (Hcols colNum Hc) as (vals & Hv & Hf).
    exists vals. split; [exact Hv|]. split; [exact Hf|].
    intros Hin. rewrite Hf, wrap64_id by exact Hin. reflexivity.
Qed.

Lemma C1_total_row_witness :
  summarize inOrder exampleDebates = Ok exampleTable
  /\ hasTotalRow (headerOf inOrder exampleDebates)
                 (dataRows (headerOf inOrder exampleDebates) exampleDebates)
                 exampleTable.
Proof.
  split; [vm_compute; reflexivity|].
  apply (C1_total_row inOrder exampleDebates exampleTable).
  vm_compute. reflexivity.
Defined.

(** C1, as stated, fails: the parsed debates of a file in which the
    candidate mentions the issue "Date" on two days dated
    9223372036854775807 give a table whose issue column holds that
    integer twice and whose Total row holds -2, not the exact sum
    18446744073709551614. *)
Lemma C1_counterexample :
  parseCsvData inOrder
    [["Date"; "A"]; [maxIntText; "Date"]; [maxIntText; "Date"]]
  = Ok [dateIssueDebate maxIntText; dateIssueDebate maxIntText]
  /\ summarize inOrder [dateIssueDebate maxIntText; dateIssueDebate maxIntText]
     = Ok [["Date"; "Candidate"; "Date"];
           [maxIntText; "A"; maxIntText];
           [maxIntText; "A"; maxIntText];
           [""; "Total"; "-2"]]
  /\ columnValues [[maxIntText; "A"; maxIntText]; [maxIntText; "A"; maxIntText]] 2
     = Some [maxInt; maxInt]
  /\ sumZ [maxInt; maxInt] = 18446744073709551614
  /\ Itoa (sumZ [maxInt; maxInt]) = "18446744073709551614"
  /\ Itoa (sumZ [maxInt; maxInt]) <> "-2".
Proof.
  split; [vm_compute; reflexivity|].
  split; [vm_compute; reflexivity|].
  split; [vm_compute; reflexivity|].
  split; [vm_compute; reflexivity|].
  split; [vm_compute; reflexivity|].
  vm_compute. discriminate.
Qed.

(** ** An issue named like a fixed column

    [cellOf] dispatches on the text of the header cell, so the column of
    an issue called "Date" (or "Candidate") is filled with the date of the
    debate (or the name of the candidate), not with a count. *)

Lemma Permutation_pair {A} (l : list A) (a b : A) :
  l ≡ₚ [a; b] -> l = [a; b] \/ l = [b; a].
Proof.
  intros Hp. pose proof (Permutation_length Hp) as Hl.
  destruct l as [|x [|y [|z l]]]; try discriminate Hl.
  apply Permutation_length_2 in Hp as [[-> ->]|[-> ->]]; auto.
Qed.

Lemma indexMap_dateIssue :
  map_to_list (indexColumns 0 ["Date"; "A"] ∅) = [("A", [1%nat]); ("Date", [0%nat])].
Proof. vm_compute. reflexivity. Qed.

Lemma getIssues_dateIssue (os : RangeOrder string) (date : string) :
  getIssues os [dateIssueDebate date] = ["Date"].
Proof.
  unfold getIssues.
  assert (H : elements (collectIssues [dateIssueDebate date]) = ["Date"])
    by (vm_compute; reflexivity).
  rewrite H. apply Permutation_singleton_r. apply visit_perm.
Qed.

Ltac parse_dateIssue oi :=
  unfold parseCsvData, dateIssueCsv; cbn [parseRows];
  let Hp := fresh "Hp" in
  pose proof (visit_perm oi 0%nat (map_to_list (indexColumns 0 ["Date"; "A"] ∅))) as Hp;
  rewrite indexMap_dateIssue in Hp at 2;
  apply Permutation_pair in Hp as [Hp|Hp];
  rewrite Hp; vm_compute; reflexivity.

Lemma parseCsvData_dateIssue_text (oi : RangeOrder (string * list nat)) :
  parseCsvData oi (dateIssueCsv "2020-01-01") = Ok [dateIssueDebate "2020-01-01"].
Proof. parse_dateIssue oi. Qed.

Lemma parseCsvData_dateIssue_negative (oi : RangeOrder (string * list nat)) :
  parseCsvData oi (dateIssueCsv "-5") = Ok [dateIssueDebate "-5"].
Proof. parse_dateIssue oi. Qed.

Lemma summarize_dateIssue_text (os : RangeOrder string) :
  summarize os [dateIssueDebate "2020-01-01"] = Err (AggregationError "2020-01-01").
Proof.
  unfold summarize. rewrite getIssues_dateIssue. vm_compute. reflexivity.
Qed.

Lemma summarize_dateIssue_negative (os : RangeOrder string) :
  summarize os [dateIssueDebate "-5"]
  = Ok [["Date"; "Candidate"; "Date"]; ["-5"; "A"; "-5"]; [""; "Total"; "-5"]].
Proof.
  unfold summarize. rewrite getIssues_dateIssue. vm_compute. reflexivity.
Qed.

(** Apart from such issues the table builder writes what it later reads:
    when no issue is called "Date" or "Candidate", every issue cell is the
    decimal rendering of a count and [summarize] returns a table. *)
Lemma cellOf_issue (debate : Debate) (candidate : Candidate) (h : string) :
  h <> "Date" -> h <> "Candidate" ->
  cellOf debate candidate h = Itoa (default 0 (IssueCount candidate !! h)).
Proof.
  intros Hd Hc. unfold cellOf. rewrite !decide_False by assumption. reflexivity.
Qed.

Lemma lookup_map {A B} (f : A -> B) (l : list A) (i : nat) :
  map f l !! i = f <$> (l !! i).
Proof. apply (list_lookup_fmap f l i). Qed.

Lemma sumColumns_succeeds (colNums : list nat) (rows : list (list string)) :
  (forall colNum, colNum ∈ colNums -> is_Some (columnValues (drop 1 rows) colNum)) ->
  forall finalRow, exists out, sumColumns colNums rows finalRow = Ok out.
Proof.
  induction colNums as [|colNum colNums IH]; intros Hcols finalRow; cbn [sumColumns].
  - eexists. reflexivity.
  - destruct (Hcols colNum) as [vals Hvals]; [left|].
    assert (Hsum : sumColumn (drop 1 rows) colNum 0 = Ok (wrap64 (0 + sumZ vals))).
    { apply sumColumn_Ok; [unfold inInt, minInt, maxInt; lia|]. eauto. }
    rewrite Hsum. cbn. apply IH. intros c Hc. apply Hcols. right. exact Hc.
Qed.

Lemma summarize_without_reserved_issue (o : RangeOrder string) (debates : list Debate) :
  "Date" ∉ collectIssues debates ->
  "Candidate" ∉ collectIssues debates ->
  intCounts debates ->
  exists table, summarize o debates = Ok table.
Proof.
  intros HD HC Hint.
  assert (Hcols : forall colNum,
             colNum ∈ seq 2 (length (headerOf o debates) - 2) ->
             is_Some (columnValues (dataRows (headerOf o debates) debates) colNum)).
  { intros colNum Hc. apply elem_of_seq in Hc.
    assert (Hh : exists h, headerOf o debates !! colNum = Some h)
      by (apply lookup_lt_is_Some; lia).
    destruct Hh as [h Hh].
    assert (Hin : h ∈ collectIssues debates).
    { unfold headerOf in Hh.
      destruct colNum as [|[|k]]; [lia | lia |]. cbn in Hh.
      apply list_elem_of_lookup_2 in Hh.
      rewrite sortReverse_perm, getIssues_perm, elem_of_elements in Hh. exact Hh. }
    assert (h <> "Date") by (intros ->; contradiction).
    assert (h <> "Candidate") by (intros ->; contradiction).
    unfold columnValues. apply mapM_is_Some, Forall_forall.
    intros row Hrow. unfold dataRows, blockOf in Hrow.
    rewrite list_elem_of_In, in_concat in Hrow. destruct Hrow as (block & Hb & Hr).
    apply in_map_iff in Hb as (d & <- & Hd). apply in_map_iff in Hr as (c & <- & Hcd).
    change (is_Some (map (cellOf d c) (headerOf o debates) !! colNum ≫= Atoi)).
    rewrite lookup_map, Hh. cbn [fmap option_fmap option_map mbind option_bind].
    rewrite cellOf_issue by assumption.
    rewrite Atoi_Itoa; [eauto|].
    destruct (IssueCount c !! h) as [n|] eqn:Hn; cbn.
    - eapply (Hint d c h n); [apply list_elem_of_In | apply list_elem_of_In |]; assumption.
    - unfold inInt, minInt, maxInt. lia. }
  unfold summarize. fold (headerOf o debates). cbv zeta.
  rewrite appendRows_spec.
  cbn [app elemAt lookup list_lookup mbind result_mbind result_bind].
  destruct (sumColumns_succeeds _ (headerOf o debates :: dataRows (headerOf o debates) debates)
              Hcols (<[1%nat:="Total"]> (replicate (length (headerOf o debates)) "")))
    as [out Hout].
  rewrite Hout. eexists. reflexivity.
Qed.

(** C2 at the input where the code leaves it: the candidate A mentions
    the issue "Date" once in the debate of 2020-01-01. The issue column of
    the data row holds the date, not the count 1, and [summarize] returns
    the error of the aggregation, for every order of the map visits. *)
Theorem C2_issue_named_Date (oi : RangeOrder (string * list nat)) (os : RangeOrder string) :
  parseCsvData oi (dateIssueCsv "2020-01-01") = Ok [dateIssueDebate "2020-01-01"]
  /\ headerOf os [dateIssueDebate "2020-01-01"] = ["Date"; "Candidate"; "Date"]
  /\ Candidates (dateIssueDebate "2020-01-01")
     = [{| Name := "A"; IssueCount := {[ "Date" := 1 ]} |}]
  /\ Itoa 1 = "1"
  /\ dataRows ["Date"; "Candidate"; "Date"] [dateIssueDebate "2020-01-01"]
     = [["2020-01-01"; "A"; "2020-01-01"]]
  /\ candidateRow ["Date"; "Candidate"; "Date"] (dateIssueDebate "2020-01-01")
       {| Name := "A"; IssueCount := {[ "Date" := 1 ]} |}
     = ["2020-01-01"; "A"; "2020-01-01"]
  /\ summarize os [dateIssueDebate "2020-01-01"] = Err (AggregationError "2020-01-01").
Proof.
  split; [apply parseCsvData_dateIssue_text|].
  split; [unfold headerOf; rewrite getIssues_dateIssue; vm_compute; reflexivity|].
  split; [reflexivity|].
  split; [vm_compute; reflexivity|].
  split; [vm_compute; reflexivity|].
  split; [vm_compute; reflexivity|].
  apply summarize_dateIssue_text.
Qed.

(** C6 at the input where the code leaves it: the debate is dated "-5"
    and the candidate mentions the issue "Date". [summarize] succeeds, all
    rows have three cells, and the cell of the issue column (index 2) of
    the data row and of the Total row is "-5", which reads as the negative
    integer -5. *)
Theorem C6_negative_issue_cell (oi : RangeOrder (string * list nat)) (os : RangeOrder string) :
  pipeline oi os (dateIssueCsv "-5")
  = Ok [["Date"; "Candidate"; "Date"]; ["-5"; "A"; "-5"]; [""; "Total"; "-5"]]
  /\ size (collectIssues [dateIssueDebate "-5"]) = 1%nat
  /\ Atoi "-5" = Some (-5)
  /\ -5 < 0.
Proof.
  split.
  - unfold pipeline. rewrite parseCsvData_dateIssue_negative.
    apply summarize_dateIssue_negative.
  - split; [vm_compute; reflexivity|]. split; [vm_compute; reflexivity | lia].
Qed.

(** C9 at the input where the code leaves it: the parsed debates of the
    file with the header Date, A and the row 2020-01-01, Date reach the
    failure branch of the aggregation loop. The cell that [strconv.Atoi]
    rejects was written by [summarize] itself, from [debate.Date]. *)
Theorem C9_aggregation_error_reached
    (oi : RangeOrder (string * list nat)) (os : RangeOrder string) :
  parseCsvData oi (dateIssueCsv "2020-01-01") = Ok [dateIssueDebate "2020-01-01"]
  /\ summarize os [dateIssueDebate "2020-01-01"] = Err (AggregationError "2020-01-01")
  /\ pipeline oi os (dateIssueCsv "2020-01-01") = Err (AggregationError "2020-01-01")
  /\ main oi os (dateIssueCsv "2020-01-01") = None
  /\ cellOf (dateIssueDebate "2020-01-01")
       {| Name := "A"; IssueCount := {[ "Date" := 1 ]} |} "Date" = "2020-01-01"
  /\ Atoi "2020-01-01" = None.
Proof.
  assert (Hp : pipeline oi os (dateIssueCsv "2020-01-01")
               = Err (AggregationError "2020-01-01")).
  { unfold pipeline. rewrite parseCsvData_dateIssue_text.
    apply summarize_dateIssue_text. }
  split; [apply parseCsvData_dateIssue_text|].
  split; [apply summarize_dateIssue_text|].
  split; [exact Hp|].
  split; [unfold main; rewrite Hp; reflexivity|].
  split; vm_compute; reflexivity.
Qed.

(** ** The record parser: rows *)

Lemma bind_Ok {A B} (r : result A) (k : A -> result B) (out : B) :
  r ≫= k = Ok out <-> exists a, r = Ok a /\ k a = Ok out.
Proof.
  destruct r as [a| |]; cbn; split.
  - eauto.
  - intros (a' & [= <-] & H). exact H.
  - intros [=].
  - intros (a' & [=] & _).
  - intros [=].
  - intros (a' & [=] & _).
Qed.

Lemma elemAt_Ok {A} (xs : list A) (i : nat) (x : A) :
  elemAt xs i = Ok x <-> xs !! i = Some x.
Proof.
  unfold elemAt. destruct (xs !! i); split; intros [=]; subst; reflexivity.
Qed.

Lemma countCells_from (index : list nat) (debateData : list string) :
  forall issueCount out,
    countCells index debateData issueCount = Ok out ->
    Forall (fun i => (i < length debateData)%nat) index
    /\ out = fold_left
               (fun issueCount indexVal =>
                  match debateData !! indexVal with
                  | Some cell => countCell cell issueCount
                  | None => issueCount
                  end)
               index issueCount.
Proof.
  induction index as [|i index IH]; intros issueCount out; cbn [countCells fold_left].
  - intros [= <-]. split; [constructor | reflexivity].
  - unfold elemAt. destruct (debateData !! i) as [cell|] eqn:Hi; cbn; [|discriminate].
    intros H. apply IH in H as [Hf ->]. split; [|reflexivity].
    constructor; [|exact Hf]. eapply lookup_lt_Some. exact Hi.
Qed.

Lemma countCells_Ok (index : list nat) (debateData : list string) (out : gmap string Z) :
  countCells index debateData ∅ = Ok out ->
  Forall (fun i => (i < length debateData)%nat) index
  /\ out = issueCountOf index debateData.
Proof. apply countCells_from. Qed.

Lemma countCells_in_range (index : list nat) (debateData : list string) :
  Forall (fun i => (i < length debateData)%nat) index ->
  forall issueCount, exists out, countCells index debateData issueCount = Ok out.
Proof.
  induction 1 as [|i index Hi _ IH]; intros issueCount; cbn [countCells].
  - eexists. reflexivity.
  - apply lookup_lt_is_Some in Hi as [cell Hc]. unfold elemAt. rewrite Hc. cbn. apply IH.
Qed.

Lemma countCells_no_error (index : list nat) (debateData : list string) (e : error) :
  forall issueCount, countCells index debateData issueCount <> Err e.
Proof.
  induction index as [|i index IH]; intros issueCount; cbn [countCells]; [discriminate|].
  unfold elemAt. destruct (debateData !! i); cbn; [apply IH | discriminate].
Qed.

Lemma parseEntries_cons (entry : string * list nat) (entries : list (string * list nat))
    (debateData : list string) (debate : Debate) :
  parseEntries (entry :: entries) debateData debate
  = if isDateEntry entry then
      if decide (1 < length entry.2)%nat then Err DateColumnError
      else
        i0 ← elemAt entry.2 0;
        cell ← elemAt debateData i0;
        parseEntries entries debateData
          {| Date := cell; Candidates := Candidates debate |}
    else
      issueCount ← countCells entry.2 debateData ∅;
      parseEntries entries debateData
        {| Date := Date debate;
           Candidates := Candidates debate
                         ++ [{| Name := entry.1; IssueCount := issueCount |}] |}.
Proof. destruct entry as [rowKey index]. reflexivity. Qed.

(** What a successful visit of the entries leaves in the debate. *)
Lemma parseEntries_Ok (entries : list (string * list nat)) (debateData : list string) :
  forall debate out,
    parseEntries entries debateData debate = Ok out ->
    inRange entries debateData
    /\ ~ dateClash entries
    /\ Date out = dateOf entries debateData (Date debate)
    /\ Candidates out
       = Candidates debate
         ++ map (candidateOf debateData)
                (filter (fun entry => isDateEntry entry <> true) entries).
Proof.
  induction entries as [|entry entries IH]; intros debate out.
  - cbn [parseEntries]. intros [= <-]. split; [constructor|].
    split; [intros H; inversion H|].
    split; [reflexivity | symmetry; apply app_nil_r].
  - rewrite parseEntries_cons. unfold dateOf, inRange, dateClash in *.
    rewrite !filter_cons.
    destruct (isDateEntry entry) eqn:Hd.
    + destruct (decide (1 < length entry.2)%nat) as [Hl|Hl]; [intros [=]|].
      intros H. apply bind_Ok in H as (i0 & Hi0 & H). apply elemAt_Ok in Hi0.
      apply bind_Ok in H as (cell & Hcell & H). apply elemAt_Ok in Hcell.
      apply IH in H as (Hr & Hc & HD & HC). cbn [Date Candidates] in HD, HC.
      destruct entry as [rowKey [|j index]]; cbn in Hi0, Hl; [discriminate|].
      injection Hi0 as ->. destruct index; cbn in Hl; [|lia].
      split; [|split; [|split]].
      * constructor; [|exact Hr]. cbn.
        constructor; [|constructor]. eapply lookup_lt_Some. exact Hcell.
      * intros Hex. apply Exists_cons in Hex as [[_ H1]|Hex]; [cbn in H1; lia | auto].
      * rewrite decide_True by reflexivity. rewrite HD.
        destruct (filter _ entries) as [|e es] eqn:Hf.
        -- cbn. rewrite Hcell. reflexivity.
        -- change (last ((rowKey, [i0]) :: e :: es)) with (last (e :: es)).
           destruct (last (e :: es)) eqn:E; [reflexivity|].
           apply last_None in E. discriminate E.
      * rewrite decide_False by (intros Hn; apply Hn; reflexivity). exact HC.
    + intros H. apply bind_Ok in H as (issueCount & Hcc & H).
      apply countCells_Ok in Hcc as [Hin ->].
      apply IH in H as (Hr & Hc & HD & HC). cbn [Date Candidates] in HD, HC.
      split; [|split; [|split]].
      * constructor; [exact Hin | exact Hr].
      * intros Hex. apply Exists_cons in Hex as [[H1 _]|Hex]; [congruence | auto].
      * rewrite decide_False by congruence. exact HD.
      * rewrite decide_True by congruence. rewrite HC, <- app_assoc. reflexivity.
Qed.

(** When every cell is there, the visit ends without a panic: with the
    error of the date columns if a date entry groups several columns, with
    a debate otherwise. *)
Lemma parseEntries_total (entries : list (string * list nat)) (debateData : list string) :
  inRange entries debateData -> nonEmptyIndex entries ->
  forall debate,
    (dateClash entries -> parseEntries entries debateData debate = Err DateColumnError)
    /\ (~ dateClash entries -> exists out, parseEntries entries debateData debate = Ok out).
Proof.
  unfold inRange, nonEmptyIndex, dateClash.
  induction entries as [|entry entries IH]; intros Hr Hn debate.
  - split; [intros H; inversion H | intros _; eexists; reflexivity].
  - apply Forall_cons in Hr as [Hr1 Hr]. apply Forall_cons in Hn as [Hn1 Hn].
    specialize (IH Hr Hn). rewrite parseEntries_cons.
    destruct (isDateEntry entry) eqn:Hd.
    + destruct (decide (1 < length entry.2)%nat) as [Hl|Hl].
      * split; [reflexivity|]. intros Hno. exfalso. apply Hno. left. auto.
      * destruct entry as [rowKey [|i0 index]]; cbn in Hn1, Hr1, Hl |- *; [congruence|].
        apply Forall_cons in Hr1 as [Hi0 _].
        apply lookup_lt_is_Some in Hi0 as [cell Hcell].
        unfold elemAt. rewrite Hcell. cbn.
        destruct (IH {| Date := cell; Candidates := Candidates debate |}) as [IH1 IH2].
        split.
        -- intros Hex. apply Exists_cons in Hex as [[_ H1]|Hex]; [cbn in H1; lia | auto].
        -- intros Hno. apply IH2. intros Hex. apply Hno. right. exact Hex.
    + destruct (countCells_in_range _ _ Hr1 ∅) as [issueCount Hcc]. rewrite Hcc. cbn.
      match goal with
      | |- context [parseEntries entries debateData ?d] => destruct (IH d) as [IH1 IH2]
      end.
      split.
      * intros Hex. apply Exists_cons in Hex as [[H1 _]|Hex]; [congruence | auto].
      * intros Hno. apply IH2. intros Hex. apply Hno. right. exact Hex.
Qed.

Lemma parseRows_Ok (o : RangeOrder (string * list nat)) (indexMap : gmap string (list nat))
    (rows : list (list string)) :
  forall n debates out,
    parseRows o indexMap n rows debates = Ok out ->
    exists parsed,
      out = debates ++ parsed
      /\ Forall2 (fun debateData debate =>
                    exists k, parseEntries (visit o k (map_to_list indexMap)) debateData
                                {| Date := ""; Candidates := [] |} = Ok debate)
                 rows parsed.
Proof.
  induction rows as [|debateData rows IH]; intros n debates out; cbn [parseRows].
  - intros [= <-]. exists []. split; [symmetry; apply app_nil_r | constructor].
  - intros H. apply bind_Ok in H as (debate & Hd & H).
    apply IH in H as (parsed & -> & Hf).
    exists (debate :: parsed). split; [rewrite <- app_assoc; reflexivity|].
    constructor; [eauto | exact Hf].
Qed.

Lemma parseRows_no_panic (o : RangeOrder (string * list nat))
    (indexMap : gmap string (list nat)) (rows : list (list string)) :
  (forall debateData k,
      debateData ∈ rows ->
      parseEntries (visit o k (map_to_list indexMap)) debateData
        {| Date := ""; Candidates := [] |} <> Panic) ->
  forall n debates, parseRows o indexMap n rows debates <> Panic.
Proof.
  induction rows as [|debateData rows IH]; intros Hrows n debates; cbn [parseRows].
  - discriminate.
  - destruct (parseEntries _ debateData _) as [debate|e|] eqn:Hd; cbn.
    + apply IH. intros row k Hrow. apply Hrows. right. exact Hrow.
    + discriminate.
    + exfalso. eapply Hrows; [left | exact Hd].
Qed.

(** The entries of the index map of a header. *)
Lemma elem_of_indexMap (header : list string) (name : string) (index : list nat) :
  (name, index) ∈ map_to_list (indexColumns 0 header ∅)
  <-> index = positions name 0 header /\ index <> [].
Proof.
  rewrite elem_of_map_to_list, indexColumns_lookup, lookup_empty.
  destruct (positions name 0 header) as [|j ps]; cbn; split.
  - intros [=].
  - intros [-> H]. congruence.
  - intros [= <-]. split; [reflexivity | discriminate].
  - intros [-> _]. reflexivity.
Qed.

Lemma elem_of_visit_indexMap (o : RangeOrder (string * list nat)) (k : nat)
    (header : list string) (entry : string * list nat) :
  entry ∈ visit o k (map_to_list (indexColumns 0 header ∅))
  <-> entry.2 = positions entry.1 0 header /\ entry.2 <> [].
Proof. rewrite visit_perm. destruct entry. apply elem_of_indexMap. Qed.

Lemma positions_lt (name : string) (header : list string) (j : nat) :
  j ∈ positions name 0 header -> (j < length header)%nat.
Proof.
  rewrite positions_spec. intros (v & _ & Hv & _).
  rewrite Nat.sub_0_r in Hv. eapply lookup_lt_Some. exact Hv.
Qed.

Lemma indexMap_inRange (o : RangeOrder (string * list nat)) (k : nat)
    (header debateData : list string) :
  (length header <= length debateData)%nat ->
  inRange (visit o k (map_to_list (indexColumns 0 header ∅))) debateData.
Proof.
  intros Hlen. apply Forall_forall. intros entry [Hp _]%elem_of_visit_indexMap.
  apply Forall_forall. intros j Hj. rewrite Hp in Hj. apply positions_lt in Hj. lia.
Qed.

Lemma indexMap_nonEmpty (o : RangeOrder (string * list nat)) (k : nat)
    (header : list string) :
  nonEmptyIndex (visit o k (map_to_list (indexColumns 0 header ∅))).
Proof.
  apply Forall_forall. intros entry [_ Hne]%elem_of_visit_indexMap. exact Hne.
Qed.

(** A visit that ends with a debate has read a cell in every column of
    the header. *)
Lemma inRange_indexMap (o : RangeOrder (string * list nat)) (k : nat)
    (header debateData : list string) :
  inRange (visit o k (map_to_list (indexColumns 0 header ∅))) debateData ->
  (length header <= length debateData)%nat.
Proof.
  intros Hr. apply Nat.nlt_ge. intros Hlt.
  destruct (lookup_lt_is_Some_2 header (length debateData) Hlt) as [h Hh].
  set (name := sanitizeColumnName h).
  assert (Hj : length debateData ∈ positions name 0 header).
  { apply positions_spec. exists h. rewrite Nat.sub_0_r. split; [lia | auto]. }
  assert (He : (name, positions name 0 header)
               ∈ visit o k (map_to_list (indexColumns 0 header ∅))).
  { apply elem_of_visit_indexMap. cbn. split; [reflexivity|].
    intros Hnil. rewrite Hnil in Hj. inversion Hj. }
  unfold inRange in Hr. rewrite Forall_forall in Hr. specialize (Hr _ He). cbn in Hr.
  rewrite Forall_forall in Hr. specialize (Hr _ Hj). lia.
Qed.

Lemma parseCsvData_no_panic (o : RangeOrder (string * list nat))
    (header : list string) (rows : list (list string)) :
  Forall (fun row => (length header <= length row)%nat) rows ->
  parseCsvData o (header :: rows) <> Panic.
Proof.
  intros Hrows. unfold parseCsvData. apply parseRows_no_panic.
  intros debateData k Hin Hp. rewrite Forall_forall in Hrows.
  pose proof (indexMap_inRange o k header debateData (Hrows _ Hin)) as Hr.
  pose proof (indexMap_nonEmpty o k header) as Hn.
  destruct (parseEntries_total _ _ Hr Hn {| Date := ""; Candidates := [] |}) as [H1 H2].
  destruct (decide (dateClash (visit o k (map_to_list (indexColumns 0 header ∅)))))
    as [Hc|Hc].
  - rewrite (H1 Hc) in Hp. discriminate.
  - destruct (H2 Hc) as [out Hout]. rewrite Hout in Hp. discriminate.
Qed.

Lemma parseCsvData_Ok (o : RangeOrder (string * list nat))
    (data : list (list string)) (debates : list Debate) :
  parseCsvData o data = Ok debates ->
  exists header rows,
    data = header :: rows
    /\ Forall2 (fun debateData debate =>
                  exists k, parseEntries (visit o k (map_to_list (indexColumns 0 header ∅)))
                              debateData {| Date := ""; Candidates := [] |} = Ok debate)
               rows debates.
Proof.
  destruct data as [|header rows]; [intros [=]|]. unfold parseCsvData.
  intros H. apply parseRows_Ok in H as (parsed & -> & Hf).
  exists header, rows. split; [reflexivity | exact Hf].
Qed.

(** ** The cells of a candidate *)






(** C10, as the code has it. [parseCsvData] indexes row 0 of its input
    unconditionally, and every data row that it visits at the grouped
    column positions: on an input with zero rows it stops with an
    out-of-range access, no error value is returned; when the input has
    at least one row and every data row has at least as many cells as
    the header row (one more than the highest header column index) it
    never does; and it returns debates only for such an input, one debate
    for each data row. *)
Theorem C10_out_of_range_access :
  (forall o : RangeOrder (string * list nat), parseCsvData o [] = Panic)
  /\ (forall (o : RangeOrder (string * list nat)) (header : list string)
             (rows : list (list string)),
         Forall (fun row => (length header <= length row)%nat) rows ->
         parseCsvData o (header :: rows) <> Panic)
  /\ (forall (o : RangeOrder (string * list nat)) (data : list (list string))
             (debates : list Debate),
         parseCsvData o data = Ok debates ->
         exists header rows,
           data = header :: rows
           /\ Forall (fun row => (length header <= length row)%nat) rows
           /\ length debates = length rows).
Proof.
  split; [reflexivity|]. split; [apply parseCsvData_no_panic|].
  intros o data debates H. apply parseCsvData_Ok in H as (header & rows & -> & Hf).
  exists header, rows. split; [reflexivity|]. split.
  - clear -Hf. induction Hf as [|row d rows ds [k Hk] _ IH]; constructor; [|exact IH].
    apply parseEntries_Ok in Hk as (Hr & _). eapply inRange_indexMap. exact Hr.
  - symmetry. eapply Forall2_length. exact Hf.
Qed.

Lemma C10_out_of_range_access_witness :
  Forall (fun row => (length ["Date"; "A [1]"; "A [2]"] <= length row)%nat)
         [["2020-01-01"; "Tax, Jobs"; "Jobs"]]
  /\ parseCsvData inOrder exampleCsv <> Panic
  /\ parseCsvData inOrder exampleCsv = Ok exampleDebates
  /\ exists header rows,
       exampleCsv = header :: rows
       /\ Forall (fun row => (length header <= length row)%nat) rows
       /\ length exampleDebates = length rows.
Proof.
  assert (Hrows : Forall (fun row => (length ["Date"; "A [1]"; "A [2]"] <= length row)%nat)
                         [["2020-01-01"; "Tax, Jobs"; "Jobs"]])
    by (constructor; [cbn; lia | constructor]).
  assert (Hok : parseCsvData inOrder exampleCsv = Ok exampleDebates)
    by (vm_compute; reflexivity).
  split; [exact Hrows|]. split; [|split; [exact Hok|]].
  - exact (proj1 (proj2 C10_out_of_range_access) inOrder _ _ Hrows).
  - exact (proj2 (proj2 C10_out_of_range_access) inOrder exampleCsv exampleDebates Hok).
Defined.

(** C10, as stated, fails in both directions. The row ["x"] has as many
    cells (1) as the highest header column index of the header Date, A,
    and the parser stops with an out-of-range access; the row [] has
    fewer cells than the highest column index of the header Date, Date,
    and the parser returns an error value, without any out-of-range
    access. *)
Lemma C10_counterexample :
  (length ["x"] >= length ["Date"; "A"] - 1)%nat
  /\ parseCsvData inOrder [["Date"; "A"]; ["x"]] = Panic
  /\ parseCsvData reversed [["Date"; "A"]; ["x"]] = Panic
  /\ (length (@nil string) < length ["Date"; "Date"] - 1)%nat
  /\ parseCsvData inOrder [["Date"; "Date"]; []] = Err DateColumnError
  /\ parseCsvData reversed [["Date"; "Date"]; []] = Err DateColumnError.
Proof.
  split; [cbn; lia|].
  split; [vm_compute; reflexivity|].
  split; [vm_compute; reflexivity|].
  split; [cbn; lia|].
  split; vm_compute; reflexivity.
Qed.

(** ** The date column *)

Lemma NoDup_only {A} (l : list A) (a : A) :
  NoDup l -> (forall x, x ∈ l <-> x = a) -> l = [a].
Proof.
  intros Hnd Hl. destruct l as [|x l].
  - exfalso. eapply not_elem_of_nil. apply Hl. reflexivity.
  - assert (x = a) as -> by (apply Hl; left).
    destruct l as [|y l]; [reflexivity|].
    assert (y = a) as -> by (apply Hl; right; left).
    apply NoDup_cons in Hnd as [Hna _]. exfalso. apply Hna. left.
Qed.

Lemma positions_NoDup (name : string) (header : list string) :
  NoDup (positions name 0 header).
Proof.
  pose proof (proj1 (positions_sorted name header 0)) as Hs.
  induction Hs as [|j ps Hs IH Hall]; constructor; [|exact IH].
  intros Hj. rewrite Forall_forall in Hall. specialize (Hall _ Hj). lia.
Qed.

Lemma elem_of_positions (name : string) (header : list string) (j : nat) :
  j ∈ positions name 0 header
  <-> exists v, header !! j = Some v /\ sanitizeColumnName v = name.
Proof.
  rewrite positions_spec, Nat.sub_0_r.
  split; intros (v & H); exists v; [tauto | split; [lia | tauto]].
Qed.

(** Two columns with one date-bearing name make a clash, in whatever
    order the map is visited. *)
Lemma dateClash_indexMap (o : RangeOrder (string * list nat)) (k : nat)
    (header : list string) (j1 j2 : nat) (h1 h2 : string) :
  j1 <> j2 ->
  header !! j1 = Some h1 -> header !! j2 = Some h2 ->
  sanitizeColumnName h1 = sanitizeColumnName h2 ->
  Contains (sanitizeColumnName h1) "Date" = true ->
  dateClash (visit o k (map_to_list (indexColumns 0 header ∅))).
Proof.
  intros Hne H1 H2 Hsame Hdate. set (name := sanitizeColumnName h1) in *.
  assert (Hj1 : j1 ∈ positions name 0 header) by (apply elem_of_positions; eauto).
  assert (Hj2 : j2 ∈ positions name 0 header) by (apply elem_of_positions; eauto).
  apply Exists_exists. exists (name, positions name 0 header). split; [|split].
  - apply elem_of_visit_indexMap. cbn. split; [reflexivity|].
    intros Hnil. rewrite Hnil in Hj1. inversion Hj1.
  - exact Hdate.
  - cbn. pose proof (positions_NoDup name header) as Hnd.
    destruct (positions name 0 header) as [|a [|b ps]]; cbn; [inversion Hj1 | | lia].
    apply list_elem_of_singleton in Hj1, Hj2. congruence.
Qed.

(** With one date-bearing column, at position [k], the date entries of
    the index map are the single entry of that column. *)
Lemma dateEntries_unique (o : RangeOrder (string * list nat)) (n : nat)
    (header : list string) (k : nat) (hk : string) :
  header !! k = Some hk ->
  (forall j h, header !! j = Some h ->
               (Contains (sanitizeColumnName h) "Date" = true <-> j = k)) ->
  filter (fun entry => isDateEntry entry = true)
         (visit o n (map_to_list (indexColumns 0 header ∅)))
  = [(sanitizeColumnName hk, [k])].
Proof.
  intros Hk Huniq. set (name := sanitizeColumnName hk).
  assert (Hps : positions name 0 header = [k]).
  { apply NoDup_only; [apply positions_NoDup|]. intros j.
    rewrite elem_of_positions. split.
    - intros (v & Hv & Hn). apply (Huniq j v Hv). rewrite Hn.
      apply (Huniq k hk Hk). reflexivity.
    - intros ->. eauto. }
  apply NoDup_only.
  - apply NoDup_filter. rewrite visit_perm. apply NoDup_map_to_list.
  - intros [key index]. rewrite list_elem_of_filter, elem_of_visit_indexMap.
    unfold isDateEntry. cbn. split.
    + intros (Hd & -> & Hne).
      destruct (positions key 0 header) as [|j ps] eqn:Hp; [congruence|].
      assert (Hj : j ∈ positions key 0 header) by (rewrite Hp; left).
      apply elem_of_positions in Hj as (v & Hv & Hn).
      assert (j = k) as -> by (apply (Huniq j v Hv); rewrite Hn; exact Hd).
      assert (key = name) as -> by (unfold name; congruence).
      rewrite <- Hp, Hps. reflexivity.
    + intros [= -> ->]. split; [|split].
      * apply (Huniq k hk Hk). reflexivity.
      * symmetry. exact Hps.
      * discriminate.
Qed.

(** C7, as the code has it. When the input has a data row, with a cell
    for every column of the header, and two columns of the header have
    one and the same normalised name, which contains "Date", the record
    parser fails with the error of the date columns, in whatever order the
    map is visited, and no output is written. When the header has exactly
    one column whose normalised name contains "Date" and the parser
    succeeds, the cell of that column is the date of the debate of every
    data row. *)
Theorem C7_date_column :
  (forall (oi : RangeOrder (string * list nat)) (os : RangeOrder string)
          (header debateData : list string) (rows : list (list string))
          (j1 j2 : nat) (h1 h2 : string),
      j1 <> j2 ->
      header !! j1 = Some h1 -> header !! j2 = Some h2 ->
      sanitizeColumnName h1 = sanitizeColumnName h2 ->
      Contains (sanitizeColumnName h1) "Date" = true ->
      (length header <= length debateData)%nat ->
      parseCsvData oi (header :: debateData :: rows) = Err DateColumnError
      /\ main oi os (header :: debateData :: rows) = None)
  /\ (forall (oi : RangeOrder (string * list nat)) (header : list string)
             (rows : list (list string)) (debates : list Debate) (k : nat) (hk : string),
         header !! k = Some hk ->
         (forall j h, header !! j = Some h ->
                      (Contains (sanitizeColumnName h) "Date" = true <-> j = k)) ->
         parseCsvData oi (header :: rows) = Ok debates ->
         Forall2 (fun debateData debate => debateData !! k = Some (Date debate))
                 rows debates).
Proof.
  split.
  - intros oi os header debateData rows j1 j2 h1 h2 Hne H1 H2 Hsame Hdate Hlen.
    assert (Hp : parseCsvData oi (header :: debateData :: rows) = Err DateColumnError).
    { unfold parseCsvData. cbn [parseRows].
      pose proof (indexMap_inRange oi 0 header debateData Hlen) as Hr.
      pose proof (indexMap_nonEmpty oi 0 header) as Hn.
      pose proof (dateClash_indexMap oi 0 header j1 j2 h1 h2 Hne H1 H2 Hsame Hdate) as Hc.
      destruct (parseEntries_total _ _ Hr Hn {| Date := ""; Candidates := [] |}) as [HE _].
      rewrite (HE Hc). reflexivity. }
    split; [exact Hp|]. unfold main, pipeline. rewrite Hp. reflexivity.
  - intros oi header rows debates k hk Hk Huniq H.
    apply parseCsvData_Ok in H as (header' & rows' & [= <- <-] & Hf).
    eapply Forall2_impl; [exact Hf|]. cbn.
    intros debateData debate [n Hn].
    apply parseEntries_Ok in Hn as (Hr & _ & HD & _). cbn [Date] in HD.
    unfold dateOf in HD. rewrite (dateEntries_unique oi n header k hk Hk Huniq) in HD.
    cbn in HD.
    assert (Hlt : (k < length debateData)%nat).
    { apply inRange_indexMap in Hr. apply lookup_lt_Some in Hk. lia. }
    apply lookup_lt_is_Some in Hlt as [cell Hcell].
    rewrite Hcell in HD. cbn in HD. rewrite HD. exact Hcell.
Qed.

Lemma C7_date_column_witness :
  parseCsvData inOrder [["Date"; "Date [1]"; "A"]; ["d1"; "d2"; "Tax"]]
  = Err DateColumnError
  /\ main inOrder inOrder [["Date"; "Date [1]"; "A"]; ["d1"; "d2"; "Tax"]] = None
  /\ Forall2 (fun debateData debate => debateData !! 0%nat = Some (Date debate))
             [["2020-01-01"; "Tax, Jobs"; "Jobs"]] exampleDebates.
Proof.
  split; [|split].
  - apply (proj1 C7_date_column inOrder inOrder ["Date"; "Date [1]"; "A"]
             ["d1"; "d2"; "Tax"] [] 0%nat 1%nat "Date" "Date [1]");
      [lia | reflexivity | reflexivity | reflexivity | reflexivity | cbn; lia].
  - apply (proj1 C7_date_column inOrder inOrder ["Date"; "Date [1]"; "A"]
             ["d1"; "d2"; "Tax"] [] 0%nat 1%nat "Date" "Date [1]");
      [lia | reflexivity | reflexivity | reflexivity | reflexivity | cbn; lia].
  - apply (proj2 C7_date_column inOrder ["Date"; "A [1]"; "A [2]"]
             [["2020-01-01"; "Tax, Jobs"; "Jobs"]] exampleDebates 0%nat "Date").
    + reflexivity.
    + intros [|[|[|j]]] h Hh; cbn in Hh; try discriminate;
        injection Hh as <-; split; intros H; try reflexivity;
        try discriminate H; vm_compute in H; discriminate H.
    + vm_compute. reflexivity.
Defined.

(** C7, as stated, fails: the file that has only the header Date,
    Date [1] has two columns whose normalised name is "Date"; the parser
    returns no error, and the output is written. *)
Lemma C7_counterexample :
  sanitizeColumnName "Date" = "Date"
  /\ sanitizeColumnName "Date [1]" = "Date"
  /\ Contains "Date" "Date" = true
  /\ parseCsvData inOrder [["Date"; "Date [1]"]] = Ok []
  /\ parseCsvData reversed [["Date"; "Date [1]"]] = Ok []
  /\ main inOrder inOrder [["Date"; "Date [1]"]] = Some [["Date"; "Candidate"]; [""; "Total"]].
Proof.
  split; [vm_compute; reflexivity|].
  split; [vm_compute; reflexivity|].
  split; [vm_compute; reflexivity|].
  split; [vm_compute; reflexivity|].
  split; vm_compute; reflexivity.
Qed.

(** ** The order of the map visits *)

Lemma short_Permutation_eq {A} (l1 l2 : list A) :
  (length l1 <= 1)%nat -> l1 ≡ₚ l2 -> l1 = l2.
Proof.
  intros Hlen Hp. destruct l1 as [|a [|b l1]]; cbn in Hlen; [| |lia].
  - apply Permutation_nil_l. exact Hp.
  - apply Permutation_singleton_l. exact Hp.
Qed.

Lemma NoDup_all_equal {A} (l : list A) :
  NoDup l -> (forall x y, x ∈ l -> y ∈ l -> x = y) -> (length l <= 1)%nat.
Proof.
  intros Hnd Heq. destruct l as [|a [|b l]]; cbn; [lia | lia |].
  exfalso. apply NoDup_cons in Hnd as [Hna _]. apply Hna.
  rewrite (Heq a b); [left | left | right; left].
Qed.

Lemma dateEntries_short (o : RangeOrder (string * list nat)) (k : nat)
    (header : list string) :
  uniqueDateName header ->
  (length (filter (fun entry => isDateEntry entry = true)
                  (visit o k (map_to_list (indexColumns 0 header ∅)))) <= 1)%nat.
Proof.
  intros Huniq. apply NoDup_all_equal.
  - apply NoDup_filter. rewrite visit_perm. apply NoDup_map_to_list.
  - assert (Hcol : forall key index,
               (key, index) ∈ visit o k (map_to_list (indexColumns 0 header ∅)) ->
               index = positions key 0 header
               /\ exists h, h ∈ header /\ sanitizeColumnName h = key).
    { intros key index [Hp Hne]%elem_of_visit_indexMap. cbn in Hp, Hne.
      split; [exact Hp|]. rewrite Hp in Hne.
      destruct (positions key 0 header) as [|j ps] eqn:E; [congruence|].
      assert (Hj : j ∈ positions key 0 header) by (rewrite E; left).
      apply elem_of_positions in Hj as (h & Hh & Hn).
      exists h. split; [eapply list_elem_of_lookup_2; exact Hh | exact Hn]. }
    intros [key1 index1] [key2 index2].
    rewrite !list_elem_of_filter. unfold isDateEntry. cbn.
    intros [Hd1 He1] [Hd2 He2].
    apply Hcol in He1 as (-> & h1 & Hh1 & <-).
    apply Hcol in He2 as (-> & h2 & Hh2 & <-).
    rewrite (Huniq h1 h2) by assumption. reflexivity.
Qed.

(** The debate of a row under two orders of the visit: the candidates are
    the same, in some order, and so is the date when the date-bearing
    columns have one name. *)
Lemma parseEntries_candidates (entries entries' : list (string * list nat))
    (debateData : list string) (d0 d d' : Debate) :
  entries ≡ₚ entries' ->
  parseEntries entries debateData d0 = Ok d ->
  parseEntries entries' debateData d0 = Ok d' ->
  Candidates d ≡ₚ Candidates d'.
Proof.
  intros Hp (_ & _ & _ & HC)%parseEntries_Ok (_ & _ & _ & HC')%parseEntries_Ok.
  rewrite HC, HC'. apply Permutation_app_head, Permutation_map.
  rewrite Hp. reflexivity.
Qed.

Lemma parseEntries_visits (o o' : RangeOrder (string * list nat)) (k k' : nat)
    (header debateData : list string) (d0 d d' : Debate) :
  uniqueDateName header ->
  parseEntries (visit o k (map_to_list (indexColumns 0 header ∅))) debateData d0 = Ok d ->
  parseEntries (visit o' k' (map_to_list (indexColumns 0 header ∅))) debateData d0 = Ok d' ->
  sameDebate d d'.
Proof.
  intros Huniq H H'.
  assert (Hp : visit o k (map_to_list (indexColumns 0 header ∅))
               ≡ₚ visit o' k' (map_to_list (indexColumns 0 header ∅)))
    by (rewrite !visit_perm; reflexivity).
  split; [|eapply parseEntries_candidates; eassumption].
  apply parseEntries_Ok in H as (_ & _ & HD & _).
  apply parseEntries_Ok in H' as (_ & _ & HD' & _).
  rewrite HD, HD'. unfold dateOf.
  rewrite (short_Permutation_eq
             (filter (fun entry => isDateEntry entry = true)
                     (visit o k (map_to_list (indexColumns 0 header ∅))))
             (filter (fun entry => isDateEntry entry = true)
                     (visit o' k' (map_to_list (indexColumns 0 header ∅)))));
    [reflexivity | |].
  - apply dateEntries_short. exact Huniq.
  - rewrite Hp. reflexivity.
Qed.

Lemma parseCsvData_visits (o o' : RangeOrder (string * list nat))
    (header : list string) (rows : list (list string)) (debates debates' : list Debate) :
  uniqueDateName header ->
  parseCsvData o (header :: rows) = Ok debates ->
  parseCsvData o' (header :: rows) = Ok debates' ->
  Forall2 sameDebate debates debates' /\ length debates = length rows.
Proof.
  intros Huniq H H'.
  apply parseCsvData_Ok in H as (? & ? & [= <- <-] & Hf).
  apply parseCsvData_Ok in H' as (? & ? & [= <- <-] & Hf').
  split; [|symmetry; eapply Forall2_length; exact Hf].
  revert debates' Hf'. induction Hf as [|row d rows ds [k Hk] _ IH]; intros debates' Hf'.
  - inversion Hf'. constructor.
  - inversion Hf' as [|? d' ? ds' [k' Hk'] Hrest]; subst.
    constructor; [|apply IH; exact Hrest].
    eapply parseEntries_visits; eassumption.
Qed.

(** The table builder on debates that are the same up to the order of
    their candidates. *)
Lemma sameDebate_collectIssues (debates debates' : list Debate) :
  Forall2 sameDebate debates debates' ->
  collectIssues debates = collectIssues debates'.
Proof.
  intros Hf. apply set_eq. intros i. rewrite !elem_of_collectIssues. split.
  - intros (d & c & Hd & Hc & Hi).
    apply list_elem_of_lookup in Hd as [n Hn].
    destruct (Forall2_lookup_l _ _ _ _ _ Hf Hn) as (d' & Hn' & [_ Hp]).
    exists d', c. split; [eapply list_elem_of_lookup_2; exact Hn'|].
    split; [rewrite <- Hp; exact Hc | exact Hi].
  - intros (d' & c & Hd & Hc & Hi).
    apply list_elem_of_lookup in Hd as [n Hn].
    destruct (Forall2_lookup_r _ _ _ _ _ Hf Hn) as (d & Hn' & [_ Hp]).
    exists d, c. split; [eapply list_elem_of_lookup_2; exact Hn'|].
    split; [rewrite Hp; exact Hc | exact Hi].
Qed.

Lemma headerOf_collectIssues (o o' : RangeOrder string) (debates debates' : list Debate) :
  collectIssues debates = collectIssues debates' ->
  headerOf o debates = headerOf o' debates'.
Proof.
  intros He. unfold headerOf. f_equal. apply sortReverse_unique.
  rewrite !getIssues_perm, He. reflexivity.
Qed.

Lemma sameDebate_blockOf (header : list string) (d d' : Debate) :
  sameDebate d d' -> blockOf header d ≡ₚ blockOf header d'.
Proof.
  intros [HD HC]. unfold blockOf. rewrite HC.
  erewrite map_ext; [reflexivity|].
  intros c. apply map_ext. intros h. unfold cellOf. rewrite HD. reflexivity.
Qed.

Lemma concat_Permutation {A} (blocks blocks' : list (list A)) :
  Forall2 Permutation blocks blocks' -> concat blocks ≡ₚ concat blocks'.
Proof.
  induction 1 as [|b b' bs bs' Hb _ IH]; cbn [concat]; [reflexivity|].
  rewrite Hb, IH. reflexivity.
Qed.

Lemma mapM_omap {A B} (f : A -> option B) (l : list A) (k : list B) :
  mapM f l = Some k -> omap f l = k.
Proof.
  revert k. induction l as [|x l IH]; intros k; cbn.
  - intros [= <-]. reflexivity.
  - destruct (f x) as [y|]; cbn; [|intros [=]].
    destruct (mapM f l) as [k'|]; cbn; [|intros [=]].
    intros [= <-]. rewrite (IH k' eq_refl). reflexivity.
Qed.

Lemma columnValues_Permutation (rows rows' : list (list string)) (colNum : nat)
    (vals vals' : list Z) :
  rows ≡ₚ rows' ->
  columnValues rows colNum = Some vals ->
  columnValues rows' colNum = Some vals' ->
  vals ≡ₚ vals'.
Proof.
  unfold columnValues. intros Hp H H'.
  apply mapM_omap in H as <-. apply mapM_omap in H' as <-.
  rewrite Hp. reflexivity.
Qed.

Lemma sumZ_Permutation (vals vals' : list Z) : vals ≡ₚ vals' -> sumZ vals = sumZ vals'.
Proof.
  induction 1 as [|v l l' _ IH|v w l|l l' l'' _ IH1 _ IH2];
    rewrite ?sumZ_cons; [reflexivity | lia | lia | congruence].
Qed.

Lemma sameDebate_blocks (header : list string) (debates debates' : list Debate) :
  Forall2 sameDebate debates debates' ->
  Forall2 Permutation (map (blockOf header) debates) (map (blockOf header) debates').
Proof.
  induction 1 as [|d d' ds ds' Hd _ IH]; cbn [map].
  - constructor.
  - constructor; [apply sameDebate_blockOf; exact Hd | exact IH].
Qed.

Lemma summarize_sameDebate (os os' : RangeOrder string) (debates debates' : list Debate)
    (table table' : list (list string)) :
  Forall2 sameDebate debates debates' ->
  summarize os debates = Ok table ->
  summarize os' debates' = Ok table' ->
  sameUpToCandidateOrder debates debates' table table'.
Proof.
  intros Hf H H'.
  apply summarize_Ok in H as (finalRow & -> & Hlen & H0 & H1 & Hcols).
  apply summarize_Ok in H' as (finalRow' & -> & Hlen' & H0' & H1' & Hcols').
  rewrite <- (headerOf_collectIssues os os' debates debates'
                (sameDebate_collectIssues _ _ Hf)) in *.
  set (header := headerOf os debates) in *.
  pose proof (sameDebate_blocks header _ _ Hf) as Hblocks.
  exists header, finalRow.
  split; [reflexivity|]. split.
  - do 2 f_equal. fold (dataRows header debates'). f_equal.
    apply list_eq. intros i.
    destruct (decide (i < 2)%nat) as [Hi|Hi].
    + destruct i as [|[|i]]; [congruence | congruence | lia].
    + destruct (decide (i < length header)%nat) as [Hl|Hl].
      * destruct (Hcols i ltac:(lia)) as (vals & Hv & ->).
        destruct (Hcols' i ltac:(lia)) as (vals' & Hv' & ->).
        do 3 f_equal. apply sumZ_Permutation.
        eapply columnValues_Permutation; [|exact Hv' | exact Hv].
        unfold dataRows. symmetry. apply concat_Permutation. exact Hblocks.
      * rewrite !lookup_ge_None_2 by lia. reflexivity.
  - eapply Forall2_impl; [exact Hf|]. intros d d'. apply sameDebate_blockOf.
Qed.

(** The candidates of the debate of a row stand in the order in which the
    index map was visited for that row. *)
Lemma parsed_candidate_order (o : RangeOrder (string * list nat)) (header : list string)
    (rows : list (list string)) (debates : list Debate) :
  parseCsvData o (header :: rows) = Ok debates ->
  Forall2 (fun debateData debate =>
             exists k,
               Candidates debate
               = map (candidateOf debateData)
                     (filter (fun entry => isDateEntry entry <> true)
                             (visit o k (map_to_list (indexColumns 0 header ∅)))))
          rows debates.
Proof.
  intros H. apply parseCsvData_Ok in H as (? & ? & [= <- <-] & Hf).
  eapply Forall2_impl; [exact Hf|]. cbv beta.
  intros debateData debate [k Hk]. exists k.
  apply parseEntries_Ok in Hk as (_ & _ & _ & HC). exact HC.
Qed.

(** C8, as the code has it. For an input whose date-bearing columns have
    one normalised name, two runs of the pipeline that write a table,
    under whatever orders of the map visits, parse one debate for each
    data row, in the order of the rows, the two debates of a row having
    the same date and the same candidates, each run with the candidates
    in the order in which it visited the index map for that row; and the
    two tables have the same header row and the same Total row and, in
    between, debate after debate in the order of the data rows, the
    candidate rows of that debate: the two tables differ at most in the
    order of the candidate rows within each debate. *)
Theorem C8_same_up_to_candidate_order
    (oi oi' : RangeOrder (string * list nat)) (os os' : RangeOrder string)
    (header : list string) (rows : list (list string))
    (table table' : list (list string)) :
  uniqueDateName header ->
  pipeline oi os (header :: rows) = Ok table ->
  pipeline oi' os' (header :: rows) = Ok table' ->
  exists debates debates',
    parseCsvData oi (header :: rows) = Ok debates
    /\ parseCsvData oi' (header :: rows) = Ok debates'
    /\ Forall2 (fun debateData debate =>
                  exists k,
                    Candidates debate
                    = map (candidateOf debateData)
                          (filter (fun entry => isDateEntry entry <> true)
                                  (visit oi k (map_to_list (indexColumns 0 header ∅)))))
               rows debates
    /\ Forall2 (fun debateData debate' =>
                  exists k,
                    Candidates debate'
                    = map (candidateOf debateData)
                          (filter (fun entry => isDateEntry entry <> true)
                                  (visit oi' k (map_to_list (indexColumns 0 header ∅)))))
               rows debates'
    /\ Forall2 sameDebate debates debates'
    /\ sameUpToCandidateOrder debates debates' table table'.
Proof.
  intros Huniq H H'. unfold pipeline in H, H'.
  apply bind_Ok in H as (debates & Hp & Hs).
  apply bind_Ok in H' as (debates' & Hp' & Hs').
  destruct (parseCsvData_visits oi oi' header rows debates debates' Huniq Hp Hp')
    as [Hf _].
  exists debates, debates'.
  split; [exact Hp|]. split; [exact Hp'|].
  split; [apply parsed_candidate_order; exact Hp|].
  split; [apply parsed_candidate_order; exact Hp'|].
  split; [exact Hf|].
  eapply summarize_sameDebate; eassumption.
Qed.

Lemma C8_same_up_to_candidate_order_witness :
  uniqueDateName ["Date"; "A"; "B"]
  /\ pipeline inOrder inOrder [["Date"; "A"; "B"]; ["d"; "x"; "y"]]
     = Ok [["Date"; "Candidate"; "y"; "x"]; ["d"; "A"; "0"; "1"]; ["d"; "B"; "1"; "0"];
           [""; "Total"; "1"; "1"]]
  /\ pipeline reversed reversed [["Date"; "A"; "B"]; ["d"; "x"; "y"]]
     = Ok [["Date"; "Candidate"; "y"; "x"]; ["d"; "B"; "1"; "0"]; ["d"; "A"; "0"; "1"];
           [""; "Total"; "1"; "1"]]
  /\ exists debates debates',
      parseCsvData inOrder [["Date"; "A"; "B"]; ["d"; "x"; "y"]] = Ok debates
      /\ parseCsvData reversed [["Date"; "A"; "B"]; ["d"; "x"; "y"]] = Ok debates'
      /\ Forall2 (fun debateData debate =>
                    exists k,
                      Candidates debate
                      = map (candidateOf debateData)
                            (filter (fun entry => isDateEntry entry <> true)
                                    (visit inOrder k
                                       (map_to_list
                                          (indexColumns 0 ["Date"; "A"; "B"] ∅)))))
                 [["d"; "x"; "y"]] debates
      /\ Forall2 (fun debateData debate' =>
                    exists k,
                      Candidates debate'
                      = map (candidateOf debateData)
                            (filter (fun entry => isDateEntry entry <> true)
                                    (visit reversed k
                                       (map_to_list
                                          (indexColumns 0 ["Date"; "A"; "B"] ∅)))))
                 [["d"; "x"; "y"]] debates'
      /\ Forall2 sameDebate debates debates'
      /\ sameUpToCandidateOrder debates debates'
           [["Date"; "Candidate"; "y"; "x"]; ["d"; "A"; "0"; "1"]; ["d"; "B"; "1"; "0"];
            [""; "Total"; "1"; "1"]]
           [["Date"; "Candidate"; "y"; "x"]; ["d"; "B"; "1"; "0"]; ["d"; "A"; "0"; "1"];
            [""; "Total"; "1"; "1"]].
Proof.
  assert (Hu : uniqueDateName ["Date"; "A"; "B"]).
  { intros h1 h2 H1 H2 D1 D2.
    rewrite !elem_of_cons, elem_of_nil in H1, H2.
    destruct H1 as [->|[->|[->|[]]]]; destruct H2 as [->|[->|[->|[]]]];
      try reflexivity; vm_compute in D1, D2; discriminate. }
  assert (H1 : pipeline inOrder inOrder [["Date"; "A"; "B"]; ["d"; "x"; "y"]]
               = Ok [["Date"; "Candidate"; "y"; "x"]; ["d"; "A"; "0"; "1"];
                     ["d"; "B"; "1"; "0"]; [""; "Total"; "1"; "1"]])
    by (vm_compute; reflexivity).
  assert (H2 : pipeline reversed reversed [["Date"; "A"; "B"]; ["d"; "x"; "y"]]
               = Ok [["Date"; "Candidate"; "y"; "x"]; ["d"; "B"; "1"; "0"];
                     ["d"; "A"; "0"; "1"]; [""; "Total"; "1"; "1"]])
    by (vm_compute; reflexivity).
  split; [exact Hu|]. split; [exact H1|]. split; [exact H2|].
  exact (C8_same_up_to_candidate_order inOrder reversed inOrder reversed
           ["Date"; "A"; "B"] [["d"; "x"; "y"]] _ _ Hu H1 H2).
Defined.

(** C8, as stated, fails: the index map of the header Date, A, B may be
    visited with A before B or with B before A, and the two runs on the
    same file write the candidate rows in different orders. *)
Lemma C8_counterexample :
  pipeline inOrder inOrder [["Date"; "A"; "B"]; ["d"; "x"; "y"]]
  = Ok [["Date"; "Candidate"; "y"; "x"]; ["d"; "A"; "0"; "1"]; ["d"; "B"; "1"; "0"];
        [""; "Total"; "1"; "1"]]
  /\ pipeline reversed inOrder [["Date"; "A"; "B"]; ["d"; "x"; "y"]]
     = Ok [["Date"; "Candidate"; "y"; "x"]; ["d"; "B"; "1"; "0"]; ["d"; "A"; "0"; "1"];
           [""; "Total"; "1"; "1"]]
  /\ pipeline inOrder inOrder [["Date"; "A"; "B"]; ["d"; "x"; "y"]]
     <> pipeline reversed inOrder [["Date"; "A"; "B"]; ["d"; "x"; "y"]].
Proof.
  split; [vm_compute; reflexivity|].
  split; [vm_compute; reflexivity|].
  vm_compute. discriminate.
Qed.

(** ** The issue columns *)

Lemma string_ge_gt (a b : string) : string_ge a b -> a <> b -> string_gt a b.
Proof.
  unfold string_ge, string_gt, String.leb, String.ltb. intros Hge Hne.
  destruct (String.compare b a) eqn:E; [|reflexivity | discriminate].
  apply String.compare_eq_iff in E. congruence.
Qed.

Lemma sortReverse_strictly_descending (l : list string) :
  NoDup l -> StronglySorted string_gt (sortReverse l).
Proof.
  intros Hnd. pose proof (sortReverse_strict l Hnd) as Hs.
  induction Hs as [|a s Hs IH Hall]; constructor; [exact IH|].
  eapply Forall_impl; [exact Hall|]. cbn. intros b [Hge Hne].
  apply string_ge_gt; assumption.
Qed.

(** The issues of parsed debates, read off the rows of the file. *)
Lemma parsed_collectIssues (o : RangeOrder (string * list nat)) (header : list string)
    (rows : list (list string)) (debates : list Debate) (i : string) :
  parseCsvData o (header :: rows) = Ok debates ->
  i ∈ collectIssues debates
  <-> exists debateData entry,
        debateData ∈ rows
        /\ entry ∈ map_to_list (indexColumns 0 header ∅)
        /\ isDateEntry entry <> true
        /\ is_Some (issueCountOf entry.2 debateData !! i).
Proof.
  intros H. apply parseCsvData_Ok in H as (? & ? & [= <- <-] & Hf).
  rewrite elem_of_collectIssues. split.
  - intros (d & c & Hd & Hc & Hi).
    apply list_elem_of_lookup in Hd as [n Hn].
    destruct (Forall2_lookup_r _ _ _ _ _ Hf Hn) as (row & Hrow & [k Hk]).
    apply parseEntries_Ok in Hk as (_ & _ & _ & HC). cbn [Candidates app] in HC.
    rewrite HC in Hc. apply list_elem_of_In, in_map_iff in Hc as (entry & <- & He).
    apply list_elem_of_In, list_elem_of_filter in He as [Hnd He].
    rewrite visit_perm in He.
    exists row, entry. split; [eapply list_elem_of_lookup_2; exact Hrow|]. auto.
  - intros (row & entry & Hrow & He & Hnd & Hi).
    apply list_elem_of_lookup in Hrow as [n Hn].
    destruct (Forall2_lookup_l _ _ _ _ _ Hf Hn) as (d & Hd & [k Hk]).
    apply parseEntries_Ok in Hk as (_ & _ & _ & HC). cbn [Candidates app] in HC.
    exists d, (candidateOf row entry). split; [eapply list_elem_of_lookup_2; exact Hd|].
    split; [|exact Hi]. rewrite HC. apply list_elem_of_In, in_map, list_elem_of_In.
    apply list_elem_of_filter. split; [exact Hnd|]. rewrite visit_perm. exact He.
Qed.

(** C5. The issue collector returns every issue name that occurs in the
    counts of some candidate of some debate, once; the issue columns of
    the header are these names in strictly descending byte-wise order;
    they are the same for every order of the map visits, for every order
    of the debates and for every order of the data rows of the file; and
    there is none when no issue was recorded. *)
Theorem C5_issue_columns (o : RangeOrder string) (debates : list Debate) :
  NoDup (getIssues o debates)
  /\ (forall i,
         i ∈ getIssues o debates
         <-> exists d c, d ∈ debates /\ c ∈ Candidates d /\ is_Some (IssueCount c !! i))
  /\ (forall table,
         summarize o debates = Ok table ->
         table !! 0%nat = Some (["Date"; "Candidate"] ++ sortReverse (getIssues o debates)))
  /\ sortReverse (getIssues o debates) ≡ₚ getIssues o debates
  /\ StronglySorted string_gt (sortReverse (getIssues o debates))
  /\ (forall (o' : RangeOrder string) (debates' : list Debate),
         debates' ≡ₚ debates ->
         sortReverse (getIssues o' debates') = sortReverse (getIssues o debates))
  /\ (forall (oi oi' : RangeOrder (string * list nat)) (o' : RangeOrder string)
             (header : list string) (rows rows' : list (list string))
             (debates' : list Debate),
         rows' ≡ₚ rows ->
         parseCsvData oi (header :: rows) = Ok debates ->
         parseCsvData oi' (header :: rows') = Ok debates' ->
         sortReverse (getIssues o' debates') = sortReverse (getIssues o debates))
  /\ ((forall d c, d ∈ debates -> c ∈ Candidates d -> IssueCount c = ∅) ->
      getIssues o debates = [] /\ sortReverse (getIssues o debates) = []).
Proof.
  split; [apply NoDup_getIssues|].
  split; [apply elem_of_getIssues|].
  split.
  { intros table (finalRow & -> & _)%summarize_Ok. reflexivity. }
  split; [apply sortReverse_perm|].
  split; [apply sortReverse_strictly_descending, NoDup_getIssues|].
  split.
  { intros o' debates' Hp. apply sortReverse_unique.
    rewrite !getIssues_perm, (collectIssues_perm _ _ Hp). reflexivity. }
  split.
  { intros oi oi' o' header rows rows' debates' Hp H H'.
    apply sortReverse_unique. rewrite !getIssues_perm.
    replace (collectIssues debates') with (collectIssues debates); [reflexivity|].
    apply set_eq. intros i.
    rewrite (parsed_collectIssues oi header rows debates i H).
    rewrite (parsed_collectIssues oi' header rows' debates' i H').
    split; intros (row & entry & Hrow & Hrest); exists row, entry; (split; [|exact Hrest]).
    - rewrite Hp. exact Hrow.
    - rewrite <- Hp. exact Hrow. }
  intros Hempty.
  assert (Hnil : getIssues o debates = []).
  { apply elem_of_nil_inv. intros i (d & c & Hd & Hc & Hi)%elem_of_getIssues.
    rewrite (Hempty d c Hd Hc), lookup_empty in Hi. destruct Hi as [? [=]]. }
  split; [exact Hnil | rewrite Hnil; reflexivity].
Qed.

Lemma C5_issue_columns_witness :
  summarize inOrder exampleDebates = Ok exampleTable
  /\ exampleTable !! 0%nat
     = Some (["Date"; "Candidate"] ++ sortReverse (getIssues inOrder exampleDebates))
  /\ sortReverse (getIssues inOrder exampleDebates) = ["Tax"; "Jobs"]
  /\ sortReverse (getIssues reversed (rev exampleDebates))
     = sortReverse (getIssues inOrder exampleDebates).
Proof.
  assert (Hs : summarize inOrder exampleDebates = Ok exampleTable)
    by (vm_compute; reflexivity).
  split; [exact Hs|]. split; [|split; [vm_compute; reflexivity|]].
  - exact (proj1 (proj2 (proj2 (C5_issue_columns inOrder exampleDebates)))
             exampleTable Hs).
  - apply (proj1 (proj2 (proj2 (proj2 (proj2 (proj2
             (C5_issue_columns inOrder exampleDebates))))))).
    symmetry. apply Permutation_rev.
Defined.

(** ** The rows of the table *)

(** Every row of a table that [summarize] returns has as many cells as
    the header, which has two cells and one more for each issue. *)
Lemma summarize_row_lengths (o : RangeOrder string) (debates : list Debate)
    (table : list (list string)) :
  summarize o debates = Ok table ->
  Forall (fun row => length row = (2 + size (collectIssues debates))%nat) table.
Proof.
  intros (finalRow & -> & Hlen & _)%summarize_Ok.
  assert (Hh : length (headerOf o debates) = (2 + size (collectIssues debates))%nat).
  { unfold headerOf. cbn [app length]. do 2 f_equal.
    rewrite sortReverse_perm, getIssues_perm. reflexivity. }
  constructor; [exact Hh|]. apply Forall_app. split.
  - apply Forall_forall. intros row Hrow. rewrite <- Hh.
    eapply length_dataRow. exact Hrow.
  - constructor; [congruence | constructor].
Qed.

(** * Further properties of the code *)

(** ** [summarize]: no out-of-range access, and what its error means *)



Lemma sumColumn_Err (rows : list (list string)) (colNum : nat) (e : error) :
  forall total,
    sumColumn rows colNum total = Err e ->
    exists row cell,
      row ∈ rows /\ row !! colNum = Some cell /\ Atoi cell = None
      /\ e = AggregationError cell.
Proof.
  induction rows as [|row rows IH]; intros total; cbn [sumColumn]; [discriminate|].
  unfold elemAt. destruct (row !! colNum) as [cell|] eqn:Hcell; cbn; [|discriminate].
  destruct (Atoi cell) as [val|] eqn:Hval.
  - intros H. apply IH in H as (row' & cell' & Hin & H1 & H2 & H3).
    exists row', cell'. split; [right; exact Hin | auto].
  - intros [= <-]. exists row, cell. split; [left | auto].
Qed.

Lemma sumColumns_Err (colNums : list nat) (rows : list (list string)) (e : error) :
  forall finalRow,
    sumColumns colNums rows finalRow = Err e ->
    exists colNum row cell,
      colNum ∈ colNums /\ row ∈ drop 1 rows /\ row !! colNum = Some cell
      /\ Atoi cell = None /\ e = AggregationError cell.
Proof.
  induction colNums as [|colNum colNums IH]; intros finalRow; cbn [sumColumns];
    [discriminate|].
  destruct (sumColumn (drop 1 rows) colNum 0) as [total|e'|] eqn:Hsum; cbn.
  - intros H. apply IH in H as (c & row & cell & Hc & H).
    exists c, row, cell. split; [right; exact Hc | exact H].
  - intros [= <-]. apply sumColumn_Err in Hsum as (row & cell & H).
    exists colNum, row, cell. split; [left | exact H].
  - discriminate.
Qed.

Lemma elem_of_dataRows (header : list string) (debates : list Debate) (row : list string) :
  row ∈ dataRows header debates
  <-> exists d c, d ∈ debates /\ c ∈ Candidates d /\ row = map (cellOf d c) header.
Proof.
  unfold dataRows, blockOf. rewrite list_elem_of_In, in_concat. split.
  - intros (block & Hb & Hr). apply in_map_iff in Hb as (d & <- & Hd).
    apply in_map_iff in Hr as (c & <- & Hc). exists d, c.
    rewrite !list_elem_of_In. auto.
  - intros (d & c & Hd & Hc & ->). rewrite list_elem_of_In in Hd. rewrite list_elem_of_In in Hc.
    exists (map (fun candidate => map (cellOf d candidate) header) (Candidates d)).
    split; [apply in_map_iff; eauto|]. apply in_map_iff. eauto.
Qed.

Lemma headerOf_issue (o : RangeOrder string) (debates : list Debate) (colNum : nat)
    (h : string) :
  (2 <= colNum)%nat -> headerOf o debates !! colNum = Some h -> h ∈ collectIssues debates.
Proof.
  intros Hc Hh. unfold headerOf in Hh.
  destruct colNum as [|[|k]]; [lia | lia |]. cbn in Hh.
  apply list_elem_of_lookup_2 in Hh.
  rewrite sortReverse_perm, getIssues_perm, elem_of_elements in Hh. exact Hh.
Qed.


(** X2. The only error of [summarize] is the error of the aggregation
    loop, and it names a cell that [strconv.Atoi] rejects. When the counts
    are values of [int], that cell is the date of a debate, in the column
    of an issue called "Date", or the name of a candidate, in the column
    of an issue called "Candidate". *)
Theorem X2_summarize_error (o : RangeOrder string) (debates : list Debate) (e : error) :
  intCounts debates ->
  summarize o debates = Err e ->
  exists cell d c,
    e = AggregationError cell
    /\ Atoi cell = None
    /\ d ∈ debates /\ c ∈ Candidates d
    /\ (("Date" ∈ collectIssues debates /\ cell = Date d)
        \/ ("Candidate" ∈ collectIssues debates /\ cell = Name c)).
Proof.
  intros Hint. unfold summarize. fold (headerOf o debates). cbv zeta.
  rewrite appendRows_spec.
  cbn [app elemAt lookup list_lookup mbind result_mbind result_bind].
  destruct (sumColumns _ _ _) as [finalRow|e'|] eqn:Hsum; cbn; [discriminate| |discriminate].
  intros [= <-].
  apply sumColumns_Err in Hsum as (colNum & row & cell & Hc & Hrow & Hcell & Hno & ->).
  apply elem_of_seq in Hc. cbn [drop] in Hrow.
  apply elem_of_dataRows in Hrow as (d & c & Hd & Hcd & ->).
  rewrite lookup_map in Hcell.
  destruct (headerOf o debates !! colNum) as [h|] eqn:Hh; [|discriminate].
  injection Hcell as <-.
  pose proof (headerOf_issue o debates colNum h ltac:(lia) Hh) as Hin.
  exists (cellOf d c h), d, c. split; [reflexivity|]. split; [exact Hno|].
  split; [exact Hd|]. split; [exact Hcd|].
  unfold cellOf in *.
  destruct (decide (h = "Date")) as [->|HnD]; [left; auto|].
  destruct (decide (h = "Candidate")) as [->|HnC]; [right; auto|].
  exfalso. rewrite Atoi_Itoa in Hno; [discriminate|].
  destruct (IssueCount c !! h) as [n|] eqn:Hn; cbn.
  - eapply Hint; eassumption.
  - unfold inInt, minInt, maxInt. lia.
Qed.

Lemma X2_summarize_error_witness :
  intCounts [dateIssueDebate "2020-01-01"]
  /\ summarize inOrder [dateIssueDebate "2020-01-01"] = Err (AggregationError "2020-01-01")
  /\ exists cell d c,
      AggregationError "2020-01-01" = AggregationError cell
      /\ Atoi cell = None
      /\ d ∈ [dateIssueDebate "2020-01-01"] /\ c ∈ Candidates d
      /\ (("Date" ∈ collectIssues [dateIssueDebate "2020-01-01"] /\ cell = Date d)
          \/ ("Candidate" ∈ collectIssues [dateIssueDebate "2020-01-01"]
              /\ cell = Name c)).
Proof.
  assert (Hint : intCounts [dateIssueDebate "2020-01-01"]).
  { intros d c i n Hd Hc Hn.
    apply list_elem_of_singleton in Hd as ->. cbn in Hc.
    apply list_elem_of_singleton in Hc as ->. cbn in Hn.
    apply lookup_singleton_Some in Hn as [_ <-]. vm_compute. split; discriminate. }
  assert (Hs : summarize inOrder [dateIssueDebate "2020-01-01"]
               = Err (AggregationError "2020-01-01")) by (vm_compute; reflexivity).
  split; [exact Hint|]. split; [exact Hs|].
  exact (X2_summarize_error inOrder _ _ Hint Hs).
Defined.

(** ** [summarize]: the table, written with the counts *)

Lemma elem_of_allCandidates (debates : list Debate) (d : Debate) (c : Candidate) :
  (d, c) ∈ allCandidates debates <-> d ∈ debates /\ c ∈ Candidates d.
Proof.
  unfold allCandidates. rewrite list_elem_of_In, in_concat. split.
  - intros (block & Hb & Hp). apply in_map_iff in Hb as (d' & <- & Hd).
    apply in_map_iff in Hp as (c' & [= <- <-] & Hc). rewrite !list_elem_of_In. auto.
  - intros [Hd Hc]. rewrite list_elem_of_In in Hd. rewrite list_elem_of_In in Hc.
    exists (map (pair d) (Candidates d)). split; [apply in_map_iff; eauto|].
    apply in_map_iff. eauto.
Qed.

Lemma length_allCandidates (header : list string) (debates : list Debate) :
  length (dataRows header debates) = length (allCandidates debates).
Proof.
  unfold dataRows, allCandidates, blockOf.
  induction debates as [|d ds IH]; cbn [map concat]; [reflexivity|].
  rewrite !length_app, !length_map, IH. reflexivity.
Qed.

Lemma dataRows_counts (issues : list string) (debates : list Debate) :
  "Date" ∉ issues -> "Candidate" ∉ issues ->
  dataRows (["Date"; "Candidate"] ++ issues) debates
  = map (countRow issues) (allCandidates debates).
Proof.
  intros HD HC. unfold dataRows, allCandidates, blockOf.
  induction debates as [|d ds IH]; cbn [map concat]; [reflexivity|].
  rewrite map_app, IH. f_equal. rewrite map_map. apply map_ext. intros c.
  unfold countRow. cbn [app map fst snd].
  assert (cellOf d c "Date" = Date d) as -> by reflexivity.
  assert (cellOf d c "Candidate" = Name c) as -> by reflexivity.
  do 2 f_equal.
  apply map_ext_in. intros h Hh. apply list_elem_of_In in Hh.
  apply cellOf_issue; intros ->; contradiction.
Qed.

Lemma countRow_lookup (issues : list string) (p : Debate * Candidate) (k : nat) :
  countRow issues p !! (2 + k)%nat
  = (fun h => Itoa (countOf p.2 h)) <$> issues !! k.
Proof. unfold countRow. exact (lookup_map _ issues k). Qed.

Lemma countTotals_lookup (issues : list string) (debates : list Debate) (k : nat) :
  countTotals issues debates !! (2 + k)%nat
  = (fun h => Itoa (wrap64 (sumZ (map (fun p : Debate * Candidate => countOf p.2 h)
                                      (allCandidates debates)))))
      <$> issues !! k.
Proof. unfold countTotals. exact (lookup_map _ issues k). Qed.

Lemma columnValues_counts (issues : list string) (pairs : list (Debate * Candidate))
    (k : nat) (h : string) :
  issues !! k = Some h ->
  Forall (fun p : Debate * Candidate => inInt (countOf p.2 h)) pairs ->
  columnValues (map (countRow issues) pairs) (2 + k)
  = Some (map (fun p : Debate * Candidate => countOf p.2 h) pairs).
Proof.
  intros Hk Hint. unfold columnValues. apply mapM_Some, Forall2_fmap_l, Forall2_fmap_r.
  apply Forall_Forall2_diag. eapply Forall_impl; [exact Hint|]. cbv beta.
  intros p Hp. unfold compose. rewrite countRow_lookup, Hk.
  cbn [fmap option_fmap option_map mbind option_bind].
  apply Atoi_Itoa. exact Hp.
Qed.

Lemma issues_not_reserved (o : RangeOrder string) (debates : list Debate) :
  noReservedIssue debates ->
  ("Date" ∉ sortReverse (getIssues o debates))
  /\ ("Candidate" ∉ sortReverse (getIssues o debates)).
Proof.
  intros [HD HC].
  rewrite !sortReverse_perm, !getIssues_perm, !elem_of_elements. auto.
Qed.

Lemma intCounts_countOf (debates : list Debate) (h : string) :
  intCounts debates ->
  Forall (fun p : Debate * Candidate => inInt (countOf p.2 h)) (allCandidates debates).
Proof.
  intros Hint. apply Forall_forall. intros [d c] [Hd Hc]%elem_of_allCandidates.
  unfold countOf. cbn. destruct (IssueCount c !! h) as [n|] eqn:Hn; cbn.
  - eapply Hint; eassumption.
  - unfold inInt, minInt, maxInt. lia.
Qed.

(** X3. When no issue is called "Date" or "Candidate" (and the counts are
    values of [int]), [summarize] returns the table made of the header
    Date, Candidate and the issues in descending order; one data row for
    each candidate of each debate, in their order, with the date, the name
    and the decimal count of every issue, 0 for an issue that the
    candidate did not mention; and the row of totals, with the sum of the
    counts of every issue as [int] adds them. *)
Theorem X3_summarize_counts (o : RangeOrder string) (debates : list Debate) :
  noReservedIssue debates ->
  intCounts debates ->
  summarize o debates
  = Ok ((["Date"; "Candidate"] ++ sortReverse (getIssues o debates))
          :: map (countRow (sortReverse (getIssues o debates))) (allCandidates debates)
          ++ [countTotals (sortReverse (getIssues o debates)) debates]).
Proof.
  intros Hres Hint.
  destruct (summarize_without_reserved_issue o debates (proj1 Hres) (proj2 Hres) Hint)
    as [table Ht].
  rewrite Ht. f_equal.
  apply summarize_Ok in Ht as (finalRow & -> & Hlen & H0 & H1 & Hcols).
  destruct (issues_not_reserved o debates Hres) as [HD HC].
  unfold headerOf in *. set (issues := sortReverse (getIssues o debates)) in *.
  rewrite dataRows_counts in * by assumption.
  do 3 f_equal. apply list_eq. intros i. cbn [app length] in Hlen, Hcols.
  destruct i as [|[|k]]; [exact H0 | exact H1 |].
  change (S (S k)) with (2 + k)%nat. rewrite countTotals_lookup.
  destruct (issues !! k) as [h|] eqn:Hk; cbn [fmap option_fmap option_map].
  - destruct (Hcols (2 + k)%nat) as (vals & Hv & ->).
    { apply lookup_lt_Some in Hk. lia. }
    rewrite (columnValues_counts issues _ k h Hk (intCounts_countOf _ h Hint)) in Hv.
    injection Hv as <-. reflexivity.
  - apply lookup_ge_None_2. apply lookup_ge_None_1 in Hk. lia.
Qed.

Lemma X3_summarize_counts_witness :
  noReservedIssue exampleDebates
  /\ intCounts exampleDebates
  /\ summarize inOrder exampleDebates
     = Ok ((["Date"; "Candidate"] ++ sortReverse (getIssues inOrder exampleDebates))
             :: map (countRow (sortReverse (getIssues inOrder exampleDebates)))
                    (allCandidates exampleDebates)
             ++ [countTotals (sortReverse (getIssues inOrder exampleDebates))
                             exampleDebates]).
Proof.
  assert (Hres : noReservedIssue exampleDebates).
  { split; intros (d & c & Hd & Hc & Hi)%elem_of_collectIssues;
      apply list_elem_of_singleton in Hd as ->; cbn in Hc;
      apply list_elem_of_singleton in Hc as ->;
      destruct Hi as [n Hn]; vm_compute in Hn; discriminate Hn. }
  assert (Hint : intCounts exampleDebates).
  { intros d c i n Hd Hc Hn.
    apply list_elem_of_singleton in Hd as ->. cbn in Hc.
    apply list_elem_of_singleton in Hc as ->. cbn in Hn.
    apply lookup_insert_Some in Hn as [[_ <-]|[_ Hn]];
      [|apply lookup_singleton_Some in Hn as [_ <-]];
      vm_compute; split; discriminate. }
  split; [exact Hres|]. split; [exact Hint|].
  exact (X3_summarize_counts inOrder exampleDebates Hres Hint).
Defined.

(** X4. A table that [summarize] returns has the header row, one row for
    each candidate of each debate and the Total row, and every one of its
    rows has two cells and one more for each distinct issue. *)
Theorem X4_table_shape (o : RangeOrder string) (debates : list Debate)
    (table : list (list string)) :
  summarize o debates = Ok table ->
  length table = (2 + length (allCandidates debates))%nat
  /\ Forall (fun row => length row = (2 + size (collectIssues debates))%nat) table.
Proof.
  intros Ht. split; [|eapply summarize_row_lengths; exact Ht].
  apply summarize_Ok in Ht as (finalRow & -> & _).
  cbn [length]. rewrite length_app, length_allCandidates. cbn [length]. lia.
Qed.

Lemma X4_table_shape_witness :
  summarize inOrder exampleDebates = Ok exampleTable
  /\ length exampleTable = (2 + length (allCandidates exampleDebates))%nat
  /\ Forall (fun row => length row = (2 + size (collectIssues exampleDebates))%nat)
            exampleTable.
Proof.
  assert (Hs : summarize inOrder exampleDebates = Ok exampleTable)
    by (vm_compute; reflexivity).
  split; [exact Hs|]. exact (X4_table_shape inOrder exampleDebates exampleTable Hs).
Defined.

(** ** [parseCsvData]: the candidates of a debate and their counts *)

Lemma cellOccurrences_cons (issue : string) (i : nat) (index : list nat)
    (debateData : list string) :
  cellOccurrences issue (i :: index) debateData
  = match debateData !! i with
    | Some cell => occurrences issue (Split cell ",")
    | None => 0
    end + cellOccurrences issue index debateData.
Proof. reflexivity. Qed.

Lemma cellOccurrences_nonneg (issue : string) (index : list nat) (debateData : list string) :
  0 <= cellOccurrences issue index debateData.
Proof.
  induction index as [|i index IH]; [unfold cellOccurrences; cbn; lia|].
  rewrite cellOccurrences_cons.
  destruct (debateData !! i); [pose proof (occurrences_nonneg issue (Split s ","))|]; lia.
Qed.

(** The counts of several cells add up, whatever cell they come from. *)
Lemma issueCount_fold (index : list nat) (debateData : list string) (issue : string) :
  forall issueCount : gmap string Z,
    fold_left
      (fun issueCount indexVal =>
         match debateData !! indexVal with
         | Some cell => countCell cell issueCount
         | None => issueCount
         end)
      index issueCount !! issue
    = if decide (issue = "" \/ cellOccurrences issue index debateData = 0)
      then issueCount !! issue
      else Some (wrap64 (default 0 (issueCount !! issue)
                         + cellOccurrences issue index debateData)).
Proof.
  induction index as [|i index IH]; intros issueCount; cbn [fold_left].
  - rewrite decide_True; [reflexivity | right; reflexivity].
  - rewrite IH, cellOccurrences_cons. clear IH.
    pose proof (cellOccurrences_nonneg issue index debateData) as Hrest.
    destruct (debateData !! i) as [cell|].
    + unfold countCell. rewrite countIssues_lookup.
      pose proof (occurrences_nonneg issue (Split cell ",")) as Hcell.
      destruct (decide (issue = "")) as [He|He].
      * rewrite !decide_True by (left; exact He). reflexivity.
      * destruct (decide (occurrences issue (Split cell ",") = 0)) as [H1|H1].
        -- rewrite (decide_True (P := issue = "" \/ occurrences _ _ = 0)) by auto.
           rewrite H1, Z.add_0_l. reflexivity.
        -- rewrite (decide_False (P := issue = "" \/ occurrences _ _ = 0))
             by (intros [?|?]; contradiction).
           rewrite (decide_False (P := issue = "" \/ _ + _ = 0))
             by (intros [?|?]; [contradiction | lia]).
           cbn [from_option id].
           destruct (decide (issue = "" \/ cellOccurrences issue index debateData = 0))
             as [[?|H2]|H2]; [contradiction | |].
           ++ rewrite H2, Z.add_0_r. reflexivity.
           ++ rewrite wrap64_add_l. do 2 f_equal. lia.
    + rewrite Z.add_0_l. reflexivity.
Qed.

Lemma issueCountOf_lookup (index : list nat) (debateData : list string) (issue : string) :
  issueCountOf index debateData !! issue
  = if decide (issue = "" \/ cellOccurrences issue index debateData = 0)
    then None
    else Some (wrap64 (cellOccurrences issue index debateData)).
Proof.
  unfold issueCountOf. rewrite issueCount_fold, lookup_empty. cbn [from_option id].
  rewrite Z.add_0_l. reflexivity.
Qed.

(** The candidates of a parsed debate, entry by entry of the index map. *)
Lemma parsed_candidates (o : RangeOrder (string * list nat)) (k : nat)
    (header debateData : list string) (debate : Debate) (c : Candidate) :
  parseEntries (visit o k (map_to_list (indexColumns 0 header ∅))) debateData
    {| Date := ""; Candidates := [] |} = Ok debate ->
  c ∈ Candidates debate
  <-> exists name,
        c = candidateOf debateData (name, positions name 0 header)
        /\ positions name 0 header <> []
        /\ Contains name "Date" <> true.
Proof.
  intros (_ & _ & _ & HC)%parseEntries_Ok. cbn [Candidates app] in HC. rewrite HC.
  rewrite list_elem_of_In, in_map_iff. split.
  - intros ([name index] & <- & He).
    apply list_elem_of_In, list_elem_of_filter in He as [Hnd He].
    apply elem_of_visit_indexMap in He as [Hp Hne]. cbn in Hp, Hne. subst index.
    exists name. auto.
  - intros (name & -> & Hne & Hnd). exists (name, positions name 0 header).
    split; [reflexivity|]. apply list_elem_of_In, list_elem_of_filter.
    split; [exact Hnd|]. apply elem_of_visit_indexMap. auto.
Qed.

Lemma positions_nonempty (name : string) (header : list string) :
  positions name 0 header <> [] <-> exists h, h ∈ header /\ sanitizeColumnName h = name.
Proof.
  split.
  - intros Hne. destruct (positions name 0 header) as [|j ps] eqn:E; [congruence|].
    assert (Hj : j ∈ positions name 0 header) by (rewrite E; left).
    apply elem_of_positions in Hj as (h & Hh & Hn).
    exists h. split; [eapply list_elem_of_lookup_2; exact Hh | exact Hn].
  - intros (h & Hh & Hn) Hnil. apply list_elem_of_lookup in Hh as [j Hj].
    assert (Hin : j ∈ positions name 0 header) by (apply elem_of_positions; eauto).
    rewrite Hnil in Hin. inversion Hin.
Qed.

(** X5. In every debate that [parseCsvData] returns there is one
    candidate for each normalised column name of the header that does not
    contain "Date", and no other: the names of the candidates of a debate
    are these names, each of them once. *)
Theorem X5_candidates_of_debate (o : RangeOrder (string * list nat))
    (header : list string) (rows : list (list string)) (debates : list Debate) :
  parseCsvData o (header :: rows) = Ok debates ->
  Forall (fun debate =>
            NoDup (map Name (Candidates debate))
            /\ forall name,
                name ∈ map Name (Candidates debate)
                <-> (exists h, h ∈ header /\ sanitizeColumnName h = name)
                    /\ Contains name "Date" = false)
         debates.
Proof.
  intros H. apply parseCsvData_Ok in H as (? & ? & [= <- <-] & Hf).
  apply Forall_forall. intros debate Hd.
  apply list_elem_of_lookup in Hd as [n Hn].
  destruct (Forall2_lookup_r _ _ _ _ _ Hf Hn) as (debateData & _ & [k Hk]).
  split.
  - pose proof Hk as (_ & _ & _ & HC)%parseEntries_Ok. cbn [Candidates app] in HC.
    rewrite HC, map_map. cbn [candidateOf Name].
    apply (sublist_NoDup _ (map fst (visit o k (map_to_list (indexColumns 0 header ∅))))).
    + change (NoDup ((visit o k (map_to_list (indexColumns 0 header ∅))).*1)).
      rewrite visit_perm. apply NoDup_fst_map_to_list.
    + apply (fmap_sublist fst). apply sublist_filter.
  - intros name. rewrite list_elem_of_In, in_map_iff. split.
    + intros (c & <- & Hc). apply list_elem_of_In in Hc.
      apply (parsed_candidates o k header debateData debate c Hk) in Hc
        as (name & -> & Hne & Hnd). cbn [candidateOf Name fst].
      split; [apply positions_nonempty; exact Hne|].
      destruct (Contains name "Date"); [contradiction | reflexivity].
    + intros [Hh Hnd]. exists (candidateOf debateData (name, positions name 0 header)).
      split; [reflexivity|]. apply list_elem_of_In.
      apply (parsed_candidates o k header debateData debate _ Hk).
      exists name. split; [reflexivity|]. split; [apply positions_nonempty; exact Hh|].
      rewrite Hnd. discriminate.
Qed.

Lemma X5_candidates_of_debate_witness :
  parseCsvData inOrder exampleCsv = Ok exampleDebates
  /\ Forall (fun debate =>
               NoDup (map Name (Candidates debate))
               /\ forall name,
                   name ∈ map Name (Candidates debate)
                   <-> (exists h, h ∈ ["Date"; "A [1]"; "A [2]"]
                                  /\ sanitizeColumnName h = name)
                       /\ Contains name "Date" = false)
            exampleDebates.
Proof.
  assert (Hp : parseCsvData inOrder exampleCsv = Ok exampleDebates)
    by (vm_compute; reflexivity).
  split; [exact Hp|].
  exact (X5_candidates_of_debate inOrder _ _ _ Hp).
Defined.

(** X6. The counts of a parsed candidate merge all the columns of the
    candidate: the count of an issue is the number of pieces of the cells
    of these columns, in the row of the debate, that are the issue once
    trimmed (as [int] counts it); an issue that occurs in none of them,
    and the empty text, are not keys of the map. *)
Theorem X6_counts_merge_columns (o : RangeOrder (string * list nat))
    (header : list string) (rows : list (list string)) (debates : list Debate) :
  parseCsvData o (header :: rows) = Ok debates ->
  Forall2 (fun debateData debate =>
             forall c issue,
               c ∈ Candidates debate ->
               IssueCount c !! issue
               = if decide (issue = ""
                            \/ cellOccurrences issue (positions (Name c) 0 header)
                                               debateData = 0)
                 then None
                 else Some (wrap64 (cellOccurrences issue (positions (Name c) 0 header)
                                                    debateData)))
          rows debates.
Proof.
  intros H. apply parseCsvData_Ok in H as (? & ? & [= <- <-] & Hf).
  eapply Forall2_impl; [exact Hf|]. cbv beta.
  intros debateData debate [k Hk] c issue Hc.
  apply (parsed_candidates o k header debateData debate c Hk) in Hc
    as (name & -> & _ & _).
  cbn [candidateOf Name IssueCount fst snd]. apply issueCountOf_lookup.
Qed.

Lemma X6_counts_merge_columns_witness :
  parseCsvData inOrder exampleCsv = Ok exampleDebates
  /\ positions "A" 0 ["Date"; "A [1]"; "A [2]"] = [1%nat; 2%nat]
  /\ cellOccurrences "Jobs" [1%nat; 2%nat] ["2020-01-01"; "Tax, Jobs"; "Jobs"] = 2
  /\ Forall2 (fun debateData debate =>
                forall c issue,
                  c ∈ Candidates debate ->
                  IssueCount c !! issue
                  = if decide (issue = ""
                               \/ cellOccurrences issue
                                    (positions (Name c) 0 ["Date"; "A [1]"; "A [2]"])
                                    debateData = 0)
                    then None
                    else Some (wrap64 (cellOccurrences issue
                                         (positions (Name c) 0 ["Date"; "A [1]"; "A [2]"])
                                         debateData)))
             [["2020-01-01"; "Tax, Jobs"; "Jobs"]] exampleDebates.
Proof.
  assert (Hp : parseCsvData inOrder exampleCsv = Ok exampleDebates)
    by (vm_compute; reflexivity).
  split; [exact Hp|]. split; [vm_compute; reflexivity|].
  split; [vm_compute; reflexivity|].
  exact (X6_counts_merge_columns inOrder _ _ _ Hp).
Defined.

(** ** [parseCsvData]: when it returns its error, and the missing date *)

Lemma parseEntries_Err (entries : list (string * list nat)) (debateData : list string)
    (e : error) :
  forall debate,
    parseEntries entries debateData debate = Err e ->
    e = DateColumnError /\ dateClash entries.
Proof.
  unfold dateClash.
  induction entries as [|entry entries IH]; intros debate; [intros [=]|].
  rewrite parseEntries_cons. destruct (isDateEntry entry) eqn:Hd.
  - destruct (decide (1 < length entry.2)%nat) as [Hl|Hl].
    + intros [= <-]. split; [reflexivity|]. left. auto.
    + unfold elemAt. destruct (entry.2 !! 0%nat) as [i0|]; cbn; [|intros [=]].
      destruct (debateData !! i0) as [cell|]; cbn; [|intros [=]].
      intros H. apply IH in H as [-> Hc]. split; [reflexivity | right; exact Hc].
  - destruct (countCells entry.2 debateData ∅) as [issueCount|e'|] eqn:Hcc; cbn.
    + intros H. apply IH in H as [-> Hc]. split; [reflexivity | right; exact Hc].
    + exfalso. eapply countCells_no_error. exact Hcc.
    + intros [=].
Qed.

Lemma parseRows_Err (o : RangeOrder (string * list nat)) (indexMap : gmap string (list nat))
    (rows : list (list string)) (e : error) :
  forall n debates,
    parseRows o indexMap n rows debates = Err e ->
    exists debateData k,
      debateData ∈ rows
      /\ parseEntries (visit o k (map_to_list indexMap)) debateData
           {| Date := ""; Candidates := [] |} = Err e.
Proof.
  induction rows as [|debateData rows IH]; intros n debates; cbn [parseRows]; [intros [=]|].
  destruct (parseEntries _ debateData _) as [debate|e'|] eqn:Hd; cbn.
  - intros H. apply IH in H as (row & k & Hrow & H). exists row, k.
    split; [right; exact Hrow | exact H].
  - intros [= <-]. exists debateData, n. split; [left | exact Hd].
  - intros [=].
Qed.

Lemma dateClash_columns (o : RangeOrder (string * list nat)) (k : nat)
    (header : list string) :
  dateClash (visit o k (map_to_list (indexColumns 0 header ∅))) ->
  exists j1 j2 h1 h2,
    j1 <> j2
    /\ header !! j1 = Some h1 /\ header !! j2 = Some h2
    /\ sanitizeColumnName h1 = sanitizeColumnName h2
    /\ Contains (sanitizeColumnName h1) "Date" = true.
Proof.
  intros ([name index] & He & Hd & Hl)%Exists_exists.
  apply elem_of_visit_indexMap in He as [Hp _]. cbn in Hp, Hl, Hd. subst index.
  unfold isDateEntry in Hd. cbn in Hd.
  pose proof (positions_NoDup name header) as Hnd.
  destruct (positions name 0 header) as [|j1 [|j2 ps]] eqn:E; cbn in Hl; [lia | lia |].
  assert (H1 : j1 ∈ positions name 0 header) by (rewrite E; left).
  assert (H2 : j2 ∈ positions name 0 header) by (rewrite E; right; left).
  apply elem_of_positions in H1 as (h1 & Hh1 & Hn1).
  apply elem_of_positions in H2 as (h2 & Hh2 & Hn2).
  exists j1, j2, h1, h2. split.
  - intros ->. apply NoDup_cons in Hnd as [Hnd _]. apply Hnd. left.
  - split; [exact Hh1|]. split; [exact Hh2|]. split; [congruence|].
    rewrite Hn1. exact Hd.
Qed.

(** X7. [parseCsvData] returns an error only in one case: the error of
    the date columns, for an input that has a data row and whose header
    has two different columns with one and the same normalised name, which
    contains "Date". *)
Theorem X7_parse_error_cause (o : RangeOrder (string * list nat))
    (data : list (list string)) (e : error) :
  parseCsvData o data = Err e ->
  e = DateColumnError
  /\ exists header rows j1 j2 h1 h2,
      data = header :: rows /\ rows <> []
      /\ j1 <> j2
      /\ header !! j1 = Some h1 /\ header !! j2 = Some h2
      /\ sanitizeColumnName h1 = sanitizeColumnName h2
      /\ Contains (sanitizeColumnName h1) "Date" = true.
Proof.
  destruct data as [|header rows]; [intros [=]|]. unfold parseCsvData.
  intros (debateData & k & Hrow & H)%parseRows_Err.
  apply parseEntries_Err in H as [-> Hc]. split; [reflexivity|].
  apply dateClash_columns in Hc as (j1 & j2 & h1 & h2 & H).
  exists header, rows, j1, j2, h1, h2. split; [reflexivity|].
  split; [intros ->; inversion Hrow | exact H].
Qed.

Lemma X7_parse_error_cause_witness :
  parseCsvData inOrder [["Date"; "Date [1]"; "A"]; ["d1"; "d2"; "Tax"]]
  = Err DateColumnError
  /\ DateColumnError = DateColumnError
  /\ exists header rows j1 j2 h1 h2,
      [["Date"; "Date [1]"; "A"]; ["d1"; "d2"; "Tax"]] = header :: rows /\ rows <> []
      /\ j1 <> j2
      /\ header !! j1 = Some h1 /\ header !! j2 = Some h2
      /\ sanitizeColumnName h1 = sanitizeColumnName h2
      /\ Contains (sanitizeColumnName h1) "Date" = true.
Proof.
  assert (Hp : parseCsvData inOrder [["Date"; "Date [1]"; "A"]; ["d1"; "d2"; "Tax"]]
               = Err DateColumnError) by (vm_compute; reflexivity).
  split; [exact Hp|]. exact (X7_parse_error_cause inOrder _ _ Hp).
Defined.

Lemma filter_none {A} (P : A -> Prop) `{forall x, Decision (P x)} (l : list A) :
  (forall x, x ∈ l -> ~ P x) -> filter P l = [].
Proof.
  intros Hl. apply elem_of_nil_inv. intros x [HP Hx]%list_elem_of_filter.
  exact (Hl x Hx HP).
Qed.

(** X8. A header without any column whose normalised name contains
    "Date" is no error: [parseCsvData] returns no error value for it, and
    the date of every debate that it returns is the empty string, the zero
    value of [debate.Date]. *)
Theorem X8_no_date_column (o : RangeOrder (string * list nat))
    (header : list string) (rows : list (list string)) :
  (forall h, h ∈ header -> Contains (sanitizeColumnName h) "Date" = false) ->
  (forall e, parseCsvData o (header :: rows) <> Err e)
  /\ (forall debates,
         parseCsvData o (header :: rows) = Ok debates ->
         Forall (fun debate => Date debate = "") debates).
Proof.
  intros Hno. split.
  - unfold parseCsvData. intros e (debateData & k & _ & H)%parseRows_Err.
    apply parseEntries_Err in H as [_ Hc].
    apply dateClash_columns in Hc as (j1 & j2 & h1 & h2 & _ & H1 & _ & _ & Hd).
    apply list_elem_of_lookup_2 in H1. rewrite (Hno h1 H1) in Hd. discriminate.
  - intros debates H. apply parseCsvData_Ok in H as (? & ? & [= <- <-] & Hf).
    apply Forall_forall. intros debate Hd.
    apply list_elem_of_lookup in Hd as [n Hn].
    destruct (Forall2_lookup_r _ _ _ _ _ Hf Hn) as (debateData & _ & [k Hk]).
    apply parseEntries_Ok in Hk as (_ & _ & HD & _). cbn [Date] in HD.
    rewrite HD. unfold dateOf. rewrite filter_none; [reflexivity|].
    intros [name index] [Hp Hne]%elem_of_visit_indexMap. cbn in Hp, Hne. subst index.
    apply positions_nonempty in Hne as (h & Hh & <-).
    unfold isDateEntry. cbn. rewrite (Hno h Hh). discriminate.
Qed.

Lemma X8_no_date_column_witness :
  (forall h, h ∈ ["When"; "A"] -> Contains (sanitizeColumnName h) "Date" = false)
  /\ parseCsvData reversed [["When"; "A"]; ["2020-01-01"; "Tax"]]
     = Ok [{| Date := "";
              Candidates := [{| Name := "A"; IssueCount := {[ "Tax" := 1 ]} |};
                             {| Name := "When"; IssueCount := {[ "2020-01-01" := 1 ]} |}] |}]
  /\ Forall (fun debate => Date debate = "")
            [{| Date := "";
                Candidates := [{| Name := "A"; IssueCount := {[ "Tax" := 1 ]} |};
                               {| Name := "When";
                                  IssueCount := {[ "2020-01-01" := 1 ]} |}] |}].
Proof.
  assert (Hno : forall h, h ∈ ["When"; "A"] -> Contains (sanitizeColumnName h) "Date" = false).
  { intros h Hh. rewrite !elem_of_cons, elem_of_nil in Hh.
    destruct Hh as [->|[->|[]]]; vm_compute; reflexivity. }
  assert (Hp : parseCsvData reversed [["When"; "A"]; ["2020-01-01"; "Tax"]]
               = Ok [{| Date := "";
                        Candidates :=
                          [{| Name := "A"; IssueCount := {[ "Tax" := 1 ]} |};
                           {| Name := "When";
                              IssueCount := {[ "2020-01-01" := 1 ]} |}] |}])
    by (vm_compute; reflexivity).
  split; [exact Hno|]. split; [exact Hp|].
  exact (proj2 (X8_no_date_column reversed ["When"; "A"] [["2020-01-01"; "Tax"]] Hno) _ Hp).
Defined.

(** ** [sanitizeColumnName]: no space is left around the name *)

Lemma trimLeftByte_startsWith (c : ascii) (s : string) :
  startsWith c (trimLeftByte c s) = false.
Proof.
  induction s as [|a s IH]; [reflexivity|]. cbn [trimLeftByte].
  destruct (Ascii.eqb a c) eqn:E; [exact IH | cbn; exact E].
Qed.

Lemma endsWith_cons (c a : ascii) (s : string) :
  s <> "" -> endsWith c (String a s) = endsWith c s.
Proof.
  intros Hne. unfold endsWith.
  change (String a s) with (String a "" +:+ s). rewrite revString_app.
  apply startsWith_app. intros Hr. apply Hne.
  rewrite <- (revString_involutive s), Hr. reflexivity.
Qed.

Lemma trimLeftByte_endsWith (c : ascii) (s : string) :
  endsWith c s = false -> endsWith c (trimLeftByte c s) = false.
Proof.
  induction s as [|a s IH]; [intros _; reflexivity|]. cbn [trimLeftByte].
  destruct (Ascii.eqb a c) eqn:E; [|auto].
  destruct s as [|b s]; [intros _; reflexivity|].
  rewrite endsWith_cons by discriminate. exact IH.
Qed.

Lemma trimRightByte_endsWith (c : ascii) (s : string) :
  endsWith c (trimRightByte c s) = false.
Proof.
  unfold endsWith, trimRightByte. rewrite revString_involutive.
  apply trimLeftByte_startsWith.
Qed.

(** X9. The normalised name of a column neither begins nor ends with a
    space. *)
Theorem X9_sanitized_name_trimmed (val : string) :
  startsWith " " (sanitizeColumnName val) = false
  /\ endsWith " " (sanitizeColumnName val) = false.
Proof.
  unfold sanitizeColumnName, Trim. split.
  - apply trimLeftByte_startsWith.
  - apply trimLeftByte_endsWith, trimRightByte_endsWith.
Qed.

(** ** The cells that [summarize] writes and reads back *)

(** X11. The cell that [summarize] writes for a count, in the column of
    an issue that is called neither "Date" nor "Candidate", is read back
    by the aggregation loop as that count: [strconv.Atoi] inverts
    [strconv.Itoa] on every value of [int]. *)
Theorem X11_count_cell_round_trip (debate : Debate) (candidate : Candidate) (h : string) :
  h <> "Date" -> h <> "Candidate" ->
  inInt (countOf candidate h) ->
  Atoi (cellOf debate candidate h) = Some (countOf candidate h).
Proof.
  intros HD HC Hint. rewrite cellOf_issue by assumption. apply Atoi_Itoa. exact Hint.
Qed.

Lemma X11_count_cell_round_trip_witness :
  "Jobs" <> "Date" /\ "Jobs" <> "Candidate"
  /\ inInt (countOf {| Name := "A"; IssueCount := {[ "Tax" := 1; "Jobs" := 2 ]} |} "Jobs")
  /\ Atoi (cellOf {| Date := "2020-01-01"; Candidates := [] |}
                  {| Name := "A"; IssueCount := {[ "Tax" := 1; "Jobs" := 2 ]} |} "Jobs")
     = Some (countOf {| Name := "A"; IssueCount := {[ "Tax" := 1; "Jobs" := 2 ]} |} "Jobs").
Proof.
  assert (H1 : "Jobs" <> "Date") by discriminate.
  assert (H2 : "Jobs" <> "Candidate") by discriminate.
  assert (H3 : inInt (countOf {| Name := "A";
                                 IssueCount := {[ "Tax" := 1; "Jobs" := 2 ]} |} "Jobs"))
    by (vm_compute; split; discriminate).
  split; [exact H1|]. split; [exact H2|]. split; [exact H3|].
  exact (X11_count_cell_round_trip _ _ "Jobs" H1 H2 H3).
Defined.

(** ** The whole run *)

Lemma noDateClash_visit (o : RangeOrder (string * list nat)) (k : nat)
    (header : list string) :
  noDateClash header ->
  ~ dateClash (visit o k (map_to_list (indexColumns 0 header ∅))).
Proof.
  intros Hno (j1 & j2 & h1 & h2 & Hne & H1 & H2 & Hs & Hd)%dateClash_columns.
  apply Hne. eapply Hno; eassumption.
Qed.

Lemma parseRows_succeeds (o : RangeOrder (string * list nat))
    (indexMap : gmap string (list nat)) (rows : list (list string)) :
  (forall debateData k,
      debateData ∈ rows ->
      exists debate,
        parseEntries (visit o k (map_to_list indexMap)) debateData
          {| Date := ""; Candidates := [] |} = Ok debate) ->
  forall n debates, exists out, parseRows o indexMap n rows debates = Ok out.
Proof.
  induction rows as [|debateData rows IH]; intros Hrows n debates; cbn [parseRows].
  - eexists. reflexivity.
  - destruct (Hrows debateData n) as [debate Hd]; [left|]. rewrite Hd. cbn.
    apply IH. intros row k Hrow. apply Hrows. right. exact Hrow.
Qed.

Lemma parseCsvData_succeeds (o : RangeOrder (string * list nat))
    (header : list string) (rows : list (list string)) :
  Forall (fun row => (length header <= length row)%nat) rows ->
  noDateClash header ->
  exists debates, parseCsvData o (header :: rows) = Ok debates.
Proof.
  intros Hrows Hno. unfold parseCsvData. apply parseRows_succeeds.
  intros debateData k Hin. rewrite Forall_forall in Hrows.
  pose proof (indexMap_inRange o k header debateData (Hrows _ Hin)) as Hr.
  pose proof (indexMap_nonEmpty o k header) as Hn.
  destruct (parseEntries_total _ _ Hr Hn {| Date := ""; Candidates := [] |}) as [_ H].
  apply H. apply noDateClash_visit. exact Hno.
Qed.

(** The counts that the parser stores are values of [int]. *)
Lemma parsed_intCounts (o : RangeOrder (string * list nat))
    (header : list string) (rows : list (list string)) (debates : list Debate) :
  parseCsvData o (header :: rows) = Ok debates -> intCounts debates.
Proof.
  intros H d c i n Hd Hc Hn.
  apply parseCsvData_Ok in H as (? & ? & [= <- <-] & Hf).
  apply list_elem_of_lookup in Hd as [m Hm].
  destruct (Forall2_lookup_r _ _ _ _ _ Hf Hm) as (debateData & _ & [k Hk]).
  apply (parsed_candidates o k header debateData d c Hk) in Hc as (name & -> & _ & _).
  cbn [candidateOf IssueCount snd] in Hn. rewrite issueCountOf_lookup in Hn.
  case_decide; [discriminate|]. injection Hn as <-. apply wrap64_inInt.
Qed.

Lemma occurrences_pos (issue : string) (pieces : list string) :
  occurrences issue pieces <> 0 ->
  exists piece, piece ∈ pieces /\ TrimSpace piece = issue.
Proof.
  unfold occurrences. intros Hne.
  destruct (filter (fun p => TrimSpace p = issue) pieces) as [|piece l] eqn:E;
    [exfalso; apply Hne; reflexivity|].
  assert (Hin : piece ∈ filter (fun p => TrimSpace p = issue) pieces)
    by (rewrite E; left).
  apply list_elem_of_filter in Hin as [Ht Hin]. eauto.
Qed.

Lemma cellOccurrences_pos (issue : string) (index : list nat) (debateData : list string) :
  cellOccurrences issue index debateData <> 0 ->
  exists cell piece,
    cell ∈ debateData /\ piece ∈ Split cell "," /\ TrimSpace piece = issue.
Proof.
  induction index as [|i index IH]; [intros H; exfalso; apply H; reflexivity|].
  rewrite cellOccurrences_cons.
  destruct (debateData !! i) as [cell|] eqn:Hi.
  - destruct (decide (occurrences issue (Split cell ",") = 0)) as [H0|H0].
    + rewrite H0, Z.add_0_l. exact IH.
    + intros _. apply occurrences_pos in H0 as (piece & Hp & Ht).
      exists cell, piece. split; [eapply list_elem_of_lookup_2; exact Hi | auto].
  - rewrite Z.add_0_l. exact IH.
Qed.

(** Every issue of parsed debates is a trimmed piece of a cell. *)
Lemma parsed_issue_mentioned (o : RangeOrder (string * list nat))
    (header : list string) (rows : list (list string)) (debates : list Debate)
    (issue : string) :
  parseCsvData o (header :: rows) = Ok debates ->
  issue ∈ collectIssues debates ->
  ~ neverMentions issue rows.
Proof.
  intros H Hin Hnever.
  apply (parsed_collectIssues o header rows debates issue H) in Hin
    as (debateData & entry & Hrow & _ & _ & [n Hn]).
  rewrite issueCountOf_lookup in Hn. case_decide as Hk; [discriminate|].
  assert (Hocc : cellOccurrences issue entry.2 debateData <> 0) by tauto.
  apply cellOccurrences_pos in Hocc as (cell & piece & Hcell & Hpiece & Ht).
  exact (Hnever debateData cell piece Hrow Hcell Hpiece Ht).
Qed.

(** X10. The run writes a table, in whatever order the maps are visited,
    for every input whose data rows have a cell for each column of the
    header, in which no two columns share a normalised name that contains
    "Date", and in which no piece of a cell is, once trimmed, "Date" or
    "Candidate": neither the parser nor the table builder fails. *)
Theorem X10_run_writes_table
    (oi : RangeOrder (string * list nat)) (os : RangeOrder string)
    (header : list string) (rows : list (list string)) :
  Forall (fun row => (length header <= length row)%nat) rows ->
  noDateClash header ->
  neverMentions "Date" rows ->
  neverMentions "Candidate" rows ->
  exists debates table,
    parseCsvData oi (header :: rows) = Ok debates
    /\ summarize os debates = Ok table
    /\ main oi os (header :: rows) = Some table.
Proof.
  intros Hrows Hclash HD HC.
  destruct (parseCsvData_succeeds oi header rows Hrows Hclash) as [debates Hp].
  destruct (summarize_without_reserved_issue os debates) as [table Ht].
  - intros Hin. exact (parsed_issue_mentioned oi header rows debates _ Hp Hin HD).
  - intros Hin. exact (parsed_issue_mentioned oi header rows debates _ Hp Hin HC).
  - eapply parsed_intCounts. exact Hp.
  - exists debates, table. split; [exact Hp|]. split; [exact Ht|].
    unfold main, pipeline. rewrite Hp. cbn. rewrite Ht. reflexivity.
Qed.

Lemma X10_run_writes_table_witness :
  Forall (fun row => (length ["Date"; "A [1]"; "A [2]"] <= length row)%nat)
         [["2020-01-01"; "Tax, Jobs"; "Jobs"]]
  /\ noDateClash ["Date"; "A [1]"; "A [2]"]
  /\ neverMentions "Date" [["2020-01-01"; "Tax, Jobs"; "Jobs"]]
  /\ neverMentions "Candidate" [["2020-01-01"; "Tax, Jobs"; "Jobs"]]
  /\ exists debates table,
      parseCsvData inOrder exampleCsv = Ok debates
      /\ summarize inOrder debates = Ok table
      /\ main inOrder inOrder exampleCsv = Some table.
Proof.
  assert (Hrows : Forall (fun row => (length ["Date"; "A [1]"; "A [2]"] <= length row)%nat)
                         [["2020-01-01"; "Tax, Jobs"; "Jobs"]])
    by (constructor; [cbn; lia | constructor]).
  assert (Hclash : noDateClash ["Date"; "A [1]"; "A [2]"]).
  { intros [|[|[|j1]]] [|[|[|j2]]] h1 h2 H1 H2 Hs Hd; cbn in H1, H2;
      try discriminate; try reflexivity;
      injection H1 as <-; injection H2 as <-; vm_compute in Hs, Hd; discriminate. }
  assert (Hnever : forall issue,
             issue = "Date" \/ issue = "Candidate" ->
             neverMentions issue [["2020-01-01"; "Tax, Jobs"; "Jobs"]]).
  { intros issue Hi debateData cell piece Hrow Hcell Hpiece Ht.
    apply list_elem_of_singleton in Hrow as ->.
    rewrite !elem_of_cons, elem_of_nil in Hcell.
    destruct Hcell as [->|[->|[->|[]]]];
      match type of Hpiece with
      | _ ∈ ?l => let v := eval vm_compute in l in change l with v in Hpiece
      end;
      rewrite !elem_of_cons, elem_of_nil in Hpiece;
      repeat (destruct Hpiece as [->|Hpiece]; [vm_compute in Ht; subst issue|]);
      try (destruct Hi; discriminate); try contradiction. }
  split; [exact Hrows|]. split; [exact Hclash|].
  split; [apply Hnever; left; reflexivity|].
  split; [apply Hnever; right; reflexivity|].
  exact (X10_run_writes_table inOrder inOrder _ _ Hrows Hclash
           (Hnever "Date" (or_introl eq_refl)) (Hnever "Candidate" (or_intror eq_refl))).
Defined.

(** ** [summarize] and the order of the debates *)

Lemma concat_perm {A} (l l' : list (list A)) : l ≡ₚ l' -> concat l ≡ₚ concat l'.
Proof.
  induction 1 as [|x l l' _ IH|x y l|l l' l'' _ IH1 _ IH2]; cbn [concat].
  - reflexivity.
  - rewrite IH. reflexivity.
  - rewrite !app_assoc. apply Permutation_app_tail, Permutation_app_comm.
  - etransitivity; eassumption.
Qed.

Lemma dataRows_perm (header : list string) (debates debates' : list Debate) :
  debates ≡ₚ debates' -> dataRows header debates ≡ₚ dataRows header debates'.
Proof. intros Hp. unfold dataRows. apply concat_perm, Permutation_map. exact Hp. Qed.

Lemma columnValues_is_Some_perm (rows rows' : list (list string)) (colNum : nat) :
  rows ≡ₚ rows' ->
  is_Some (columnValues rows colNum) -> is_Some (columnValues rows' colNum).
Proof.
  unfold columnValues. rewrite !mapM_is_Some. intros Hp H. rewrite <- Hp. exact H.
Qed.

Lemma summarize_succeeds (o : RangeOrder string) (debates : list Debate) :
  (forall colNum,
      (2 <= colNum < length (headerOf o debates))%nat ->
      is_Some (columnValues (dataRows (headerOf o debates) debates) colNum)) ->
  exists table, summarize o debates = Ok table.
Proof.
  intros Hcols. unfold summarize. fold (headerOf o debates). cbv zeta.
  rewrite appendRows_spec.
  cbn [app elemAt lookup list_lookup mbind result_mbind result_bind].
  destruct (sumColumns_succeeds (seq 2 (length (headerOf o debates) - 2))
              (headerOf o debates :: dataRows (headerOf o debates) debates))
    with (finalRow := <[1%nat:="Total"]> (replicate (length (headerOf o debates)) ""))
    as [out Hout].
  - intros colNum Hc. apply elem_of_seq in Hc. cbn [drop]. apply Hcols. lia.
  - rewrite Hout. eexists. reflexivity.
Qed.

(** X12. Whether [summarize] succeeds does not depend on the order of
    the debates, nor do the header row and the Total row of the table: for
    the same debates in another order, the table has the same first row,
    the same last row and the same rows in between, in another order. *)
Theorem X12_debate_order (o o' : RangeOrder string) (debates debates' : list Debate)
    (table : list (list string)) :
  debates' ≡ₚ debates ->
  summarize o debates = Ok table ->
  exists table',
    summarize o' debates' = Ok table'
    /\ head table' = head table
    /\ last table' = last table
    /\ table' ≡ₚ table.
Proof.
  intros Hp Ht.
  apply summarize_Ok in Ht as (finalRow & -> & Hlen & H0 & H1 & Hcols).
  assert (Hh : headerOf o' debates' = headerOf o debates)
    by (apply headerOf_collectIssues, collectIssues_perm; exact Hp).
  pose proof (dataRows_perm (headerOf o debates) _ _ Hp) as Hrows.
  destruct (summarize_succeeds o' debates') as [table' Ht'].
  { rewrite Hh. intros colNum Hc. destruct (Hcols colNum Hc) as (vals & Hv & _).
    eapply columnValues_is_Some_perm; [symmetry; exact Hrows|]. rewrite Hv. eauto. }
  exists table'. split; [exact Ht'|].
  apply summarize_Ok in Ht' as (finalRow' & -> & Hlen' & H0' & H1' & Hcols').
  rewrite Hh in *.
  assert (Hf : finalRow' = finalRow).
  { apply list_eq. intros i.
    destruct (decide (i < 2)%nat) as [Hi|Hi].
    - destruct i as [|[|i]]; [congruence | congruence | lia].
    - destruct (decide (i < length (headerOf o debates))%nat) as [Hl|Hl].
      + destruct (Hcols i ltac:(lia)) as (vals & Hv & ->).
        destruct (Hcols' i ltac:(lia)) as (vals' & Hv' & ->).
        do 3 f_equal. apply sumZ_Permutation.
        eapply columnValues_Permutation; [exact Hrows | exact Hv' | exact Hv].
      + rewrite !lookup_ge_None_2 by lia. reflexivity. }
  subst finalRow'. split; [reflexivity|]. split.
  - rewrite !app_comm_cons, !last_snoc. reflexivity.
  - constructor. apply Permutation_app_tail. exact Hrows.
Qed.

Lemma X12_debate_order_witness :
  [dateIssueDebate "7"; dateIssueDebate "5"] ≡ₚ [dateIssueDebate "5"; dateIssueDebate "7"]
  /\ summarize inOrder [dateIssueDebate "5"; dateIssueDebate "7"]
     = Ok [["Date"; "Candidate"; "Date"]; ["5"; "A"; "5"]; ["7"; "A"; "7"];
           [""; "Total"; "12"]]
  /\ exists table',
      summarize reversed [dateIssueDebate "7"; dateIssueDebate "5"] = Ok table'
      /\ head table' = Some ["Date"; "Candidate"; "Date"]
      /\ last table' = Some [""; "Total"; "12"]
      /\ table' ≡ₚ [["Date"; "Candidate"; "Date"]; ["5"; "A"; "5"]; ["7"; "A"; "7"];
                    [""; "Total"; "12"]].
Proof.
  assert (Hp : [dateIssueDebate "7"; dateIssueDebate "5"]
               ≡ₚ [dateIssueDebate "5"; dateIssueDebate "7"]) by apply perm_swap.
  assert (Hs : summarize inOrder [dateIssueDebate "5"; dateIssueDebate "7"]
               = Ok [["Date"; "Candidate"; "Date"]; ["5"; "A"; "5"]; ["7"; "A"; "7"];
                     [""; "Total"; "12"]]) by (vm_compute; reflexivity).
  split; [exact Hp|]. split; [exact Hs|].
  exact (X12_debate_order inOrder reversed _ _ _ Hp Hs).
Defined.

(** ** [parseCsvData]: row after row *)

Lemma parseRows_app (o : RangeOrder (string * list nat)) (indexMap : gmap string (list nat))
    (rows rows' : list (list string)) :
  forall n debates,
    parseRows o indexMap n (rows ++ rows') debates
    = out ← parseRows o indexMap n rows debates;
      parseRows o indexMap (n + length rows) rows' out.
Proof.
  induction rows as [|debateData rows IH]; intros n debates; cbn [app parseRows length].
  - rewrite Nat.add_0_r. reflexivity.
  - destruct (parseEntries _ debateData _) as [debate|e|]; cbn; [|reflexivity..].
    rewrite IH. replace (S n + length rows)%nat with (n + S (length rows))%nat by lia.
    reflexivity.
Qed.

(** X13. The parser reads the data rows in order and returns at the
    first row that fails: when the rows [rows] alone make it fail, with
    the error or with an out-of-range access, it fails in the same way
    with any rows after them, which are never read; and when it succeeds
    on [rows] followed by [rows'], it succeeds on [rows] alone, with the
    first debates of the longer run. *)
Theorem X13_rows_in_order (o : RangeOrder (string * list nat))
    (header : list string) (rows rows' : list (list string)) :
  (forall e, parseCsvData o (header :: rows) = Err e ->
             parseCsvData o (header :: rows ++ rows') = Err e)
  /\ (parseCsvData o (header :: rows) = Panic ->
      parseCsvData o (header :: rows ++ rows') = Panic)
  /\ (forall debates,
         parseCsvData o (header :: rows ++ rows') = Ok debates ->
         parseCsvData o (header :: rows) = Ok (take (length rows) debates)).
Proof.
  unfold parseCsvData. rewrite parseRows_app.
  split; [|split].
  - intros e ->. reflexivity.
  - intros ->. reflexivity.
  - intros debates H. apply bind_Ok in H as (out & Hout & H). rewrite Hout. f_equal.
    pose proof Hout as (parsed & -> & Hf)%parseRows_Ok.
    apply parseRows_Ok in H as (parsed' & -> & _).
    cbn [app]. rewrite take_app_length'; [reflexivity|].
    eapply Forall2_length. exact Hf.
Qed.

Lemma X13_rows_in_order_witness :
  parseCsvData inOrder [["Date"; "A"]; ["d1"]] = Panic
  /\ parseCsvData inOrder ([["Date"; "A"]; ["d1"]] ++ [["d2"; "Tax"]]) = Panic
  /\ parseCsvData inOrder (["Date"; "A"] :: [["d1"; "Jobs"]] ++ [["d2"; "Tax"]])
     = Ok [{| Date := "d1"; Candidates := [{| Name := "A"; IssueCount := {[ "Jobs" := 1 ]} |}] |};
           {| Date := "d2"; Candidates := [{| Name := "A"; IssueCount := {[ "Tax" := 1 ]} |}] |}]
  /\ parseCsvData inOrder [["Date"; "A"]; ["d1"; "Jobs"]]
     = Ok (take 1 [{| Date := "d1";
                      Candidates := [{| Name := "A"; IssueCount := {[ "Jobs" := 1 ]} |}] |};
                   {| Date := "d2";
                      Candidates := [{| Name := "A"; IssueCount := {[ "Tax" := 1 ]} |}] |}]).
Proof.
  assert (H1 : parseCsvData inOrder [["Date"; "A"]; ["d1"]] = Panic)
    by (vm_compute; reflexivity).
  assert (H2 : parseCsvData inOrder (["Date"; "A"] :: [["d1"; "Jobs"]] ++ [["d2"; "Tax"]])
               = Ok [{| Date := "d1";
                        Candidates := [{| Name := "A"; IssueCount := {[ "Jobs" := 1 ]} |}] |};
                     {| Date := "d2";
                        Candidates := [{| Name := "A"; IssueCount := {[ "Tax" := 1 ]} |}] |}])
    by (vm_compute; reflexivity).
  split; [exact H1|]. split; [|split; [exact H2|]].
  - exact (proj1 (proj2 (X13_rows_in_order inOrder ["Date"; "A"] [["d1"]] [["d2"; "Tax"]]))
             H1).
  - exact (proj2 (proj2 (X13_rows_in_order inOrder ["Date"; "A"] [["d1"; "Jobs"]]
                           [["d2"; "Tax"]])) _ H2).
Defined.

(** X14. The date of a parsed debate is a cell of its row, in a column
    whose normalised name contains "Date"; it is the empty string when the
    header has no such column. With several such columns, of different
    names, it is the cell of one of them. *)
Theorem X14_date_of_debate (o : RangeOrder (string * list nat))
    (header : list string) (rows : list (list string)) (debates : list Debate) :
  parseCsvData o (header :: rows) = Ok debates ->
  Forall2 (fun debateData debate =>
             (Date debate = ""
              /\ forall h, h ∈ header -> Contains (sanitizeColumnName h) "Date" = false)
             \/ exists j h,
                 header !! j = Some h
                 /\ Contains (sanitizeColumnName h) "Date" = true
                 /\ debateData !! j = Some (Date debate))
          rows debates.
Proof.
  intros H. apply parseCsvData_Ok in H as (? & ? & [= <- <-] & Hf).
  eapply Forall2_impl; [exact Hf|]. cbv beta.
  intros debateData debate [k Hk].
  apply parseEntries_Ok in Hk as (Hr & Hc & HD & _). cbn [Date] in HD.
  unfold dateOf in HD.
  set (entries := visit o k (map_to_list (indexColumns 0 header ∅))) in *.
  destruct (last (filter (fun entry => isDateEntry entry = true) entries))
    as [[name index]|] eqn:Hlast.
  - right. apply last_Some in Hlast as [l' Hl'].
    assert (He : (name, index) ∈ filter (fun entry => isDateEntry entry = true) entries).
    { rewrite Hl'. apply elem_of_app. right. left. }
    apply list_elem_of_filter in He as [Hd He].
    pose proof He as [Hp Hne]%elem_of_visit_indexMap. cbn in Hp, Hne.
    unfold inRange in Hr. rewrite Forall_forall in Hr. specialize (Hr _ He). cbn in Hr.
    destruct index as [|j index]; [congruence|].
    assert (Hj : j ∈ positions name 0 header) by (rewrite <- Hp; left).
    apply elem_of_positions in Hj as (h & Hh & Hn).
    apply Forall_cons in Hr as [Hlt _].
    apply lookup_lt_is_Some in Hlt as [cell Hcell].
    cbn in HD. rewrite Hcell in HD. cbn in HD.
    exists j, h. split; [exact Hh|]. split; [rewrite Hn; exact Hd|].
    rewrite HD. exact Hcell.
  - left. split; [exact HD|]. apply last_None in Hlast.
    intros h Hh. destruct (Contains (sanitizeColumnName h) "Date") eqn:Hc'; [|reflexivity].
    exfalso.
    assert (He : (sanitizeColumnName h, positions (sanitizeColumnName h) 0 header)
                 ∈ filter (fun entry => isDateEntry entry = true) entries).
    { apply list_elem_of_filter. split; [exact Hc'|].
      apply elem_of_visit_indexMap. cbn. split; [reflexivity|].
      apply positions_nonempty. eauto. }
    rewrite Hlast in He. inversion He.
Qed.

Lemma X14_date_of_debate_witness :
  parseCsvData inOrder exampleCsv = Ok exampleDebates
  /\ Forall2 (fun debateData debate =>
                (Date debate = ""
                 /\ forall h, h ∈ ["Date"; "A [1]"; "A [2]"] ->
                              Contains (sanitizeColumnName h) "Date" = false)
                \/ exists j h,
                    ["Date"; "A [1]"; "A [2]"] !! j = Some h
                    /\ Contains (sanitizeColumnName h) "Date" = true
                    /\ debateData !! j = Some (Date debate))
             [["2020-01-01"; "Tax, Jobs"; "Jobs"]] exampleDebates.
Proof.
  assert (Hp : parseCsvData inOrder exampleCsv = Ok exampleDebates)
    by (vm_compute; reflexivity).
  split; [exact Hp|]. exact (X14_date_of_debate inOrder _ _ _ Hp).
Defined.
